(** * DB postprocessing (python_reference/db_postprocess.py)

    A shallow embedding of the detection postprocessing stage: resize
    metadata, binarisation, per-region filtering and scoring, unclip
    expansion, inverse scaling, clamping and orientation normalisation.

    Numbers.  The Python code computes with IEEE floats (Python [float],
    numpy [float32]); here every real quantity is an exact rational [Q].
    Integer quantities (image sizes, pixel coordinates, the scaled
    coordinates handed to the polygon offsetting engine) are [Z].

    Where rounding in floating point can change a result (a product midway
    between two integers or within rounding of one, a quotient that reaches
    its bound), the statements are given with the tolerance that holds of
    both.

    Division by zero raises or gives inf/NaN in Python and gives 0 in [Q];
    the statements below about the value of a quotient assume the divisor
    positive, as the interface of the code does.

    External collaborators.  OpenCV ([cv2]) and pyclipper are not part of
    the repository; their routines are the fields of two records that the
    functions take as arguments, so every theorem holds for whatever these
    routines answer. *)

From Stdlib Require Import ZArith QArith Qround Qabs Qminmax Lqa Lia Ascii String.
From stdpp Require Import base option list gmap strings pretty.

Local Open Scope Q_scope.

(** ** Exceptions

    Python calls that may raise are results in [exc]; [try_except] is the
    [try: ... except Exception: ...] statement. *)
Module Exc.

Inductive exc (A : Type) : Type :=
| Val (a : A)
| Raised (msg : string).
Arguments Val {A} a.
Arguments Raised {A} msg.

Definition bind {A B : Type} (m : exc A) (k : A -> exc B) : exc B :=
  match m with
  | Val a => k a
  | Raised e => Raised e
  end.

Definition try_except {A : Type} (body : exc A) (handler : string -> exc A) : exc A :=
  match body with
  | Val a => Val a
  | Raised e => handler e
  end.

End Exc.
Import Exc.

Notation "'let*' x ':=' m 'in' k" := (Exc.bind m (fun x => k))
  (at level 10, x name, m at level 100, k at level 200).

(** ** Numeric helpers *)

(** Strict comparison as a boolean, the [<] and [>] of the source. *)
Definition Qltb (x y : Q) : bool := negb (Qle_bool y x).

(** Python [int(x)] on a float: truncation toward zero. *)
Definition py_int (x : Q) : Z := Z.quot (Qnum x) (Zpos (Qden x)).

(** Python 3 [round(x)] on a float: nearest integer, ties to the even one. *)
Definition py_round (x : Q) : Z :=
  let f := Qfloor x in
  match Qcompare (x - inject_Z f) (1 # 2) with
  | Lt => f
  | Gt => (f + 1)%Z
  | Eq => if Z.even f then f else (f + 1)%Z
  end.

(** [np.clip(a, lo, hi)], which is [minimum(hi, maximum(a, lo))]. *)
Definition np_clip (a lo hi : Q) : Q := Qmin hi (Qmax a lo).

(** ** compute_det_resize_meta (lines 26-46)

    The source divides and multiplies in double precision and rounds the
    double product; here the exact product is rounded.  The two differ
    only in the last bits of the scale and, when the exact product lies
    midway between two integers, in which of the two is returned. *)
Definition compute_det_resize_meta (orig_h orig_w resize_long : Z) : Z * Z * Q :=
  let scale := inject_Z resize_long / inject_Z (Z.max orig_h orig_w) in
  let resize_h := py_round (inject_Z orig_h * scale) in
  let resize_w := py_round (inject_Z orig_w * scale) in
  (resize_h, resize_w, scale).

(** ** Data model *)

(** A vertex with real coordinates, a row [x, y] of an [N, 2] array. *)
Definition Point : Type := Q * Q.
Definition Polygon : Type := list Point.

(** A boundary point with integer coordinates, as OpenCV contours and
    pyclipper paths have them. *)
Definition IPoint : Type := Z * Z.
Definition Contour : Type := list IPoint.
Definition Path : Type := list IPoint.

(** A 2-D array as a list of rows. *)
Definition ProbMap : Type := list (list Q).
Definition Image : Type := list (list Z).

(** The OpenCV routines the pipeline calls.
    [findContours binary] is
    [cv2.findContours(binary, cv2.RETR_EXTERNAL, cv2.CHAIN_APPROX_SIMPLE)[0]];
    [fillPoly shape contour] is the array that
    [cv2.fillPoly(np.zeros(shape), [contour], 255)] leaves behind;
    [arcLength curve] is [cv2.arcLength(curve, True)];
    [approxPolyDP curve epsilon] is [cv2.approxPolyDP(curve, epsilon, True)]. *)
Record Cv2 : Type := {
  findContours : Image -> list Contour;
  fillPoly : nat * nat -> Contour -> Image;
  arcLength : Polygon -> Q;
  approxPolyDP : Contour -> Q -> Contour
}.

(** The pyclipper routines [unclip] calls.  [offset_round_closed path delta]
    stands for the three calls [pc = PyclipperOffset()],
    [pc.AddPath(path, JT_ROUND, ET_CLOSEDPOLYGON)], [pc.Execute(delta)],
    any of which may raise; [Area] is [pyclipper.Area]. *)
Record Pyclipper : Type := {
  offset_round_closed : Path -> Z -> exc (list Path);
  Area : Path -> Q
}.

(** ** numpy helpers *)

Definition np_sum (l : list Q) : Q := foldr Qplus 0 l.

(** [a.mean()]; the mean of an empty selection is NaN, here [None]. *)
Definition np_mean (l : list Q) : option Q :=
  match l with
  | [] => None
  | _ => Some (np_sum l / inject_Z (Z.of_nat (length l)))
  end.

(** [v < b] on a float that may be NaN: false on NaN. *)
Definition float_ltb (v : option Q) (b : Q) : bool :=
  match v with
  | Some q => Qltb q b
  | None => false
  end.

(** [a.shape] of a 2-D array. *)
Definition shape {A : Type} (a : list (list A)) : nat * nat :=
  (length a, match a with [] => 0%nat | row :: _ => length row end).

(** Entry [a[r, c]] of a 2-D array, when both indices are in range. *)
Definition at2 {A : Type} (a : list (list A)) (r c : nat) : option A :=
  a !! r ≫= (fun row => row !! c).

(** [prob_map[mask]]: the entries at which the boolean mask is set, in
    row-major order. *)
Definition select_row (row : list Q) (mrow : list bool) : list Q :=
  map fst (filter (fun pm => Is_true (snd pm)) (zip row mrow)).

Definition masked_select (prob_map : ProbMap) (mask : list (list bool)) : list Q :=
  concat (zip_with select_row prob_map mask).

(** [contour.astype(np.float32)] on integer points. *)
Definition to_float (c : Contour) : Polygon :=
  map (fun p => (inject_Z (fst p), inject_Z (snd p))) c.

(** Modelled from the spec: [cv2.contourArea] is an OpenCV routine, absent
    from src/.  Section 4.4 describes it as the planar area by the shoelace
    formula, taken in absolute value: half of the closed cross-product sum
    over consecutive boundary points, the last one paired with the first. *)
Fixpoint cross_sum (first : IPoint) (c : Contour) : Z :=
  match c with
  | [] => 0
  | p :: rest =>
      let q := match rest with [] => first | q :: _ => q end in
      (fst p * snd q - fst q * snd p + cross_sum first rest)%Z
  end.

Definition shoelace_area (c : Contour) : Q :=
  match c with
  | [] => 0
  | first :: _ => inject_Z (cross_sum first c) / 2
  end.

Definition contourArea (c : Contour) : Q := Qabs (shoelace_area c).













(** ** Binarisation (line 74) *)
Definition binarize (prob_map : ProbMap) (thresh : Q) : Image :=
  map (map (fun p => ((if Qltb thresh p then 1 else 0) * 255)%Z)) prob_map.

(** A pixel of the binary map is foreground when it is not zero. *)
Definition foreground (v : Z) : bool := negb (v =? 0)%Z.

(** ** is_clockwise (lines 206-221)

    The source sums in the precision of the vertex array, single precision
    for the polygons of [db_postprocess]; here the sum is exact.  The two
    agree on the sign whenever the exact sum is not within rounding of
    zero, and they agree that the sum is zero when every summand is. *)
Definition col0 (polygon : Polygon) : list Q := map fst polygon.
Definition col1 (polygon : Polygon) : list Q := map snd polygon.

(** [np.sum((x[1:] - x[:-1]) * (y[1:] + y[:-1]))] *)
Definition orientation_sum (polygon : Polygon) : Q :=
  let x := col0 polygon in
  let y := col1 polygon in
  np_sum (zip_with Qmult (zip_with Qminus (tail x) (removelast x))
                         (zip_with Qplus (tail y) (removelast y))).

Definition is_clockwise (polygon : Polygon) : bool :=
  let area := orientation_sum polygon in
  Qltb area 0.

(** The summand of [orientation_sum] for the consecutive vertices [a], [b]. *)
Definition edge_term (a b : Point) : Q := (fst b - fst a) * (snd b + snd a).

(** A vertex lies in the rectangle of the original image. *)
Definition in_bounds (orig_h orig_w : Z) (p : Point) : Prop :=
  0 <= fst p /\ fst p <= inject_Z orig_w /\ 0 <= snd p /\ snd p <= inject_Z orig_h.

(** ** unclip (lines 155-203) *)

(** Python [max(first :: rest, key=key)]: the first item of greatest key. *)
Fixpoint py_max_by {A : Type} (key : A -> Q) (best : A) (rest : list A) : A :=
  match rest with
  | [] => best
  | item :: rest' =>
      if Qltb (key best) (key item) then py_max_by key item rest'
      else py_max_by key best rest'
  end.

Definition SCALE : Q := 1000.

Section Unclip.
Variable cv2 : Cv2.
Variable pyclipper : Pyclipper.

(** The body of the [try] block.  The source computes [distance] and
    [distance * SCALE] in double precision before truncating; here the
    exact product is truncated, which can differ by one unit of the
    engine's scale when the exact product is an integer. *)
Definition unclip_body (polygon : Polygon) (unclip_ratio area : Q) : exc (option Polygon) :=
  let perimeter := arcLength cv2 polygon in
  if Qltb perimeter (1 # 1000000) then Val None
  else
    let distance := area * unclip_ratio / perimeter in
    let scaled_poly := map (fun p => (py_int (fst p * SCALE), py_int (snd p * SCALE))) polygon in
    let scaled_distance := py_int (distance * SCALE) in
    let* expanded := offset_round_closed pyclipper scaled_poly scaled_distance in
    match expanded with
    | [] => Val None
    | p0 :: ps =>
        let expanded_poly := py_max_by (fun p => Qabs (Area pyclipper p)) p0 ps in
        let expanded_polygon :=
          map (fun p => (inject_Z (fst p) / SCALE, inject_Z (snd p) / SCALE)) expanded_poly in
        Val (Some expanded_polygon)
    end.

Definition unclip (polygon : Polygon) (unclip_ratio area : Q) : exc (option Polygon) :=
  try_except (unclip_body polygon unclip_ratio area) (fun _ => Val None).

(** ** db_postprocess (lines 49-152) *)

(** Lines 122-130: the guarded call of [unclip].  [None] is [continue]. *)
Definition expansion_stage (call : exc (option Polygon)) : option Polygon :=
  match call with
  | Val (Some expanded_polygon) =>
      if (length expanded_polygon <? 3)%nat then None else Some expanded_polygon
  | Val None => None
  | Raised _ => None
  end.

(** Lines 135-140: inverse scaling and clipping, column by column. *)
Definition on_col0 (f : Q -> Q) (polygon : Polygon) : Polygon :=
  map (fun p => (f (fst p), snd p)) polygon.
Definition on_col1 (f : Q -> Q) (polygon : Polygon) : Polygon :=
  map (fun p => (fst p, f (snd p))) polygon.

Definition scale_and_clip (scale : Q) (orig_h orig_w : Z) (polygon : Polygon) : Polygon :=
  let polygon := on_col0 (fun x => x / scale) polygon in
  let polygon := on_col1 (fun y => y / scale) polygon in
  let polygon := on_col0 (fun x => np_clip x 0 (inject_Z orig_w)) polygon in
  let polygon := on_col1 (fun y => np_clip y 0 (inject_Z orig_h)) polygon in
  polygon.

(** Lines 143-144. *)
Definition ensure_clockwise (polygon : Polygon) : Polygon :=
  if negb (is_clockwise polygon) then rev polygon else polygon.

Section Regions.
Variable prob_map : ProbMap.
Variables orig_h orig_w : Z.
Variables scale box_thresh unclip_ratio min_area : Q.
Variable max_candidates : Z.

(** Lines 93-108: the two filters.  [true] means the region goes on. *)
Definition passes_area (contour : Contour) : bool :=
  negb (Qltb (contourArea contour) min_area).

Definition mean_score (contour : Contour) : option Q :=
  let mask := fillPoly cv2 (shape prob_map) contour in
  let mask := map (map (fun v => (0 <? v)%Z)) mask in
  np_mean (masked_select prob_map mask).

Definition passes_score (contour : Contour) : bool :=
  negb (float_ltb (mean_score contour) box_thresh).

(** Lines 112-130: simplification and expansion of a region. *)
Definition expand_region (contour : Contour) : option Polygon :=
  let area := contourArea contour in
  let epsilon := (5 # 1000) * arcLength cv2 (to_float contour) in
  let approx := approxPolyDP cv2 contour epsilon in
  if (length approx <? 3)%nat then None
  else
    let polygon := to_float approx in
    expansion_stage (unclip polygon unclip_ratio area).

(** One iteration of the loop up to the [append]: the polygon the region
    contributes, or [None] when the iteration ends in [continue]. *)
Definition region_polygon (contour : Contour) : option Polygon :=
  if negb (passes_area contour) then None
  else if negb (passes_score contour) then None
  else
    match expand_region contour with
    | None => None
    | Some polygon =>
        let polygon := scale_and_clip scale orig_h orig_w polygon in
        Some (ensure_clockwise polygon)
    end.

(** The [for contour in contours] loop with its [continue]s and [break]. *)
Fixpoint process_contours (contours : list Contour) (polygons : list Polygon) : list Polygon :=
  match contours with
  | [] => polygons
  | contour :: rest =>
      match region_polygon contour with
      | None => process_contours rest polygons
      | Some polygon =>
          let polygons := polygons ++ [polygon] in
          if (max_candidates <=? Z.of_nat (length polygons))%Z then polygons
          else process_contours rest polygons
      end
  end.

End Regions.

Definition db_postprocess (prob_map : ProbMap) (orig_shape resize_shape : Z * Z) (scale : Q)
    (thresh box_thresh unclip_ratio : Q) (max_candidates : Z) (min_area : Q) : list Polygon :=
  let binary := binarize prob_map thresh in
  let contours := findContours cv2 binary in
  if (length contours =? 0)%nat then []
  else
    let '(orig_h, orig_w) := orig_shape in
    process_contours prob_map orig_h orig_w scale box_thresh unclip_ratio min_area
                     max_candidates contours [].

End Unclip.

(** The number of polygons at which the loop stops: the [break] test comes
    after the [append], so the loop holds at least one polygon by then. *)
Definition cap (max_candidates : Z) : nat := Z.to_nat (Z.max 1 max_candidates).

(** The documented defaults of [db_postprocess]. *)
Definition default_thresh : Q := 3 # 10.
Definition default_box_thresh : Q := 6 # 10.
Definition default_unclip_ratio : Q := 15 # 10.
Definition default_max_candidates : Z := 1000.
Definition default_min_area : Q := 300.

(** ** Stand-ins for the external routines

    Concrete routines on which the pipeline can be run.  They answer as
    OpenCV does on the inputs used below, binary maps whose foreground is
    one filled axis-parallel rectangle: the external contour of such a map
    is the rectangle's four corner pixels, its filling is the rectangle with
    its border, and its arc length is the sum of the side lengths. *)
Module RectWorld.

(** Coordinates [(x, y)] of the foreground pixels, row by row. *)
Definition fg_coords (img : Image) : list IPoint :=
  concat (imap (fun r row =>
    omap (fun cv => if foreground (snd cv) then Some (Z.of_nat (fst cv), Z.of_nat r) else None)
         (imap (fun c v => (c, v)) row)) img).

Definition min_of (z : Z) (l : list Z) : Z := foldr Z.min z l.
Definition max_of (z : Z) (l : list Z) : Z := foldr Z.max z l.

(** Corners [(x0, y0), (x1, y1)] of the bounding box of a point list. *)
Definition bbox (pts : list IPoint) : option (IPoint * IPoint) :=
  match pts with
  | [] => None
  | (x, y) :: _ =>
      Some ((min_of x (map fst pts), min_of y (map snd pts)),
            (max_of x (map fst pts), max_of y (map snd pts)))
  end.

Definition rect_findContours (binary : Image) : list Contour :=
  match bbox (fg_coords binary) with
  | None => []
  | Some ((x0, y0), (x1, y1)) => [[(x0, y0); (x0, y1); (x1, y1); (x1, y0)]]
  end.

Definition rect_fillPoly (shp : nat * nat) (contour : Contour) : Image :=
  match bbox contour with
  | None => replicate (fst shp) (replicate (snd shp) 0%Z)
  | Some ((x0, y0), (x1, y1)) =>
      imap (fun r row =>
        imap (fun c (_ : Z) =>
          if ((x0 <=? Z.of_nat c) && (Z.of_nat c <=? x1) &&
              (y0 <=? Z.of_nat r) && (Z.of_nat r <=? y1))%Z
          then 255%Z else 0%Z) row)
        (replicate (fst shp) (replicate (snd shp) 0%Z))
  end.

(** Length of the closed curve with every edge measured along the axes;
    the Euclidean length when all edges are axis-parallel. *)
Fixpoint axis_length (first : Point) (curve : Polygon) : Q :=
  match curve with
  | [] => 0
  | p :: rest =>
      let q := match rest with [] => first | q :: _ => q end in
      Qabs (fst q - fst p) + Qabs (snd q - snd p) + axis_length first rest
  end.

Definition rect_arcLength (curve : Polygon) : Q :=
  match curve with
  | [] => 0
  | first :: _ => axis_length first curve
  end.

Definition rect_cv2 : Cv2 := {|
  findContours := rect_findContours;
  fillPoly := rect_fillPoly;
  arcLength := rect_arcLength;
  approxPolyDP := fun curve _ => curve
|}.

(** An offsetting engine with square corners: the bounding box of the path
    grown by [delta] on every side, listed from the corner of greatest
    coordinates.  It is not the ring Clipper's round joins produce, only
    an engine on which the pipeline can be run; the theorems below hold
    for every engine. *)
Definition box_offset (path : Path) (delta : Z) : exc (list Path) :=
  match bbox path with
  | None => Raised "All paths are invalid"
  | Some ((x0, y0), (x1, y1)) =>
      Val [[(x1 + delta, y1 + delta); (x1 + delta, y0 - delta);
            (x0 - delta, y0 - delta); (x0 - delta, y1 + delta)]]%Z
  end.

Definition box_pyclipper : Pyclipper := {|
  offset_round_closed := box_offset;
  Area := shoelace_area
|}.

(** An engine whose every call raises. *)
Definition raising_pyclipper : Pyclipper := {|
  offset_round_closed := fun _ _ => Raised "clipper error";
  Area := shoelace_area
|}.

(** An engine that answers with no ring. *)
Definition empty_pyclipper : Pyclipper := {|
  offset_round_closed := fun _ _ => Val [];
  Area := shoelace_area
|}.

(** A [rows] x [cols] map of value [bg] with the value [v] on the rectangle
    of columns [x0..x1] and rows [y0..y1]. *)
Definition rect_map (rows cols : nat) (bg v : Q) (x0 y0 x1 y1 : nat) : ProbMap :=
  imap (fun r row =>
    imap (fun c (_ : Q) =>
      if (Nat.leb x0 c && Nat.leb c x1 && Nat.leb y0 r && Nat.leb r y1)
      then v else bg) row)
    (replicate rows (replicate cols 0)).

(** A 5 x 7 map with a block of probability 0.9 touching the top edge. *)
Definition top_map : ProbMap := rect_map 5 7 0 (9 # 10) 1 0 5 3.

(** A 7 x 9 map of probability 0.35 around a block of probability 0.9. *)
Definition halo_map : ProbMap := rect_map 7 9 (35 # 100) (9 # 10) 1 1 5 3.

End RectWorld.

(** Further stand-ins *)
Module MoreStandIns.

(** OpenCV routines with a simplifier that keeps two points of every
    curve, as [cv2.approxPolyDP] does for a sliver thinner than epsilon. *)
Definition coarse_cv2 : Cv2 := {|
  findContours := RectWorld.rect_findContours;
  fillPoly := RectWorld.rect_fillPoly;
  arcLength := RectWorld.rect_arcLength;
  approxPolyDP := fun curve _ => take 2 curve
|}.

(** An engine that answers with three rings, the last two of equal and
    greatest area. *)
Definition three_rings : list Path :=
  [[(0, 0); (1000, 0); (1000, 1000); (0, 1000)];
   [(0, 0); (0, 2000); (2000, 2000); (2000, 0)];
   [(5000, 0); (7000, 0); (7000, 2000); (5000, 2000)]]%Z.

Definition split_pyclipper : Pyclipper := {|
  offset_round_closed := fun _ _ => Val three_rings;
  Area := shoelace_area
|}.


End MoreStandIns.

(** ** sigmoid (lines 224-234)

    [np.exp] is the argument [exp].  In floating point the quotient
    reaches 1 for large arguments and 0 where the exponential overflows;
    the bounds below are therefore stated with both ends included. *)
Definition sigmoid (exp : Q -> Q) (x : Q) : Q :=
  1 / (1 + exp (- np_clip x (- (500)) 500)).

(** * visualize.py *)
Module Visualize.

(** A pixel [B, G, R] of an [H, W, 3] image of [cv2.imread]. *)
Definition Pixel : Type := Z * Z * Z.
Definition BgrImage : Type := list (list Pixel).

(** A 4-D array as nested lists. *)
Definition Tensor4 : Type := list (list (list (list Q))).

Definition mean : Q * Q * Q := (485 # 1000, 456 # 1000, 406 # 1000).
Definition std : Q * Q * Q := (229 # 1000, 224 # 1000, 225 # 1000).

(** [resized[:, :, ::-1].astype(np.float32) / 255.0] on one pixel. *)
Definition to_rgb01 (px : Pixel) : Q * Q * Q :=
  let '(b, g, r) := px in
  (inject_Z r / 255, inject_Z g / 255, inject_Z b / 255).

(** [(img_rgb - mean) / std] on one pixel, broadcast over the channels. *)
Definition normalize (rgb : Q * Q * Q) : Q * Q * Q :=
  let '(c0, c1, c2) := rgb in
  let '(m0, m1, m2) := mean in
  let '(s0, s1, s2) := std in
  ((c0 - m0) / s0, (c1 - m1) / s1, (c2 - m2) / s2).

Definition channel (c : nat) (px : Q * Q * Q) : Q :=
  match c with
  | 0%nat => fst (fst px)
  | 1%nat => snd (fst px)
  | _ => snd px
  end.

(** [a[:stop]] of Python: a negative [stop] counts from the end. *)
Definition py_slice_to {A : Type} (stop : Z) (l : list A) : list A :=
  if (0 <=? stop)%Z then take (Z.to_nat stop) l
  else take (length l - Z.to_nat (- stop)) l.

(** [a[0]], which raises on an empty sequence. *)
Definition index0 {A : Type} (l : list A) : exc A :=
  match l with
  | [] => Raised "IndexError"
  | a :: _ => Val a
  end.

Section Pipeline.
(** [resize img dsize] is [cv2.resize(img, dsize, interpolation=cv2.INTER_LINEAR)];
    [session_run model_path input] is the creation of the ONNX Runtime
    session for [model_path] and its [run] on [input]; [exp] is [np.exp]. *)
Variable resize : BgrImage -> Z * Z -> exc BgrImage.
Variable session_run : string -> Tensor4 -> exc (list Tensor4).
Variable exp : Q -> Q.

(** preprocess_image (lines 29-70) *)
Definition preprocess_image (img : BgrImage) (target_long_side : Z)
    : exc (Tensor4 * Z * Z * Q * (nat * nat)) :=
  let original_shape := shape img in
  let '(original_h, original_w) := original_shape in
  let '(resize_h, resize_w, scale) :=
    compute_det_resize_meta (Z.of_nat original_h) (Z.of_nat original_w) target_long_side in
  let* resized := resize img (resize_w, resize_h) in
  let img_rgb := map (map to_rgb01) resized in
  let img_normalized := map (map normalize) img_rgb in
  let img_chw := map (fun c => map (map (channel c)) img_normalized) [0; 1; 2]%nat in
  let preprocessed := [img_chw] in
  Val (preprocessed, resize_h, resize_w, scale, original_shape).

(** run_onnx_inference (lines 73-105) *)
Definition run_onnx_inference (model_path : string) (input_tensor : Tensor4)
    (resize_h resize_w : Z) : exc ProbMap :=
  let* outputs := session_run model_path input_tensor in
  let* output0 := index0 outputs in
  let* batch0 := index0 output0 in
  let* prob_map_full := index0 batch0 in
  let prob_map_full := map (map (sigmoid exp)) prob_map_full in
  let prob_map := map (py_slice_to resize_w) (py_slice_to resize_h prob_map_full) in
  Val prob_map.

End Pipeline.

(** A resize that repeats the top-left pixel, for running the code. *)
Definition flat_resize (img : BgrImage) (dsize : Z * Z) : exc BgrImage :=
  match img with
  | (px :: _) :: _ =>
      if ((0 <? fst dsize) && (0 <? snd dsize))%Z
      then Val (replicate (Z.to_nat (snd dsize)) (replicate (Z.to_nat (fst dsize)) px))
      else Raised "cv2.error"
  | _ => Raised "cv2.error"
  end.

End Visualize.

(** * scripts/extract_char_dict.py

    Strings are the UTF-8 bytes of the Python strings. *)
Module CharDict.

Definition squote : string := "'".
Definition dquote : string := String (Ascii.ascii_of_nat 34) EmptyString.
Definition backslash : string := "\".
Definition newline : string := String (Ascii.ascii_of_nat 10) EmptyString.
Definition creturn : string := String (Ascii.ascii_of_nat 13) EmptyString.
Definition tab : string := String (Ascii.ascii_of_nat 9) EmptyString.

(** Lines 47-61: the escaping of one dictionary entry. *)
Definition ts_escape (char : string) : string :=
  if String.eqb char squote then backslash +:+ squote
  else if String.eqb char dquote then backslash +:+ dquote
  else if String.eqb char backslash then backslash +:+ backslash
  else if String.eqb char newline then backslash +:+ "n"
  else if String.eqb char creturn then backslash +:+ "r"
  else if String.eqb char tab then backslash +:+ "t"
  else char.

(** Line 62: the text written for entry [i]. *)
Definition ts_line (i : nat) (char : string) : string :=
  "  '" +:+ ts_escape char +:+ "',  // " +:+ pretty i +:+ newline.

(** Lines 46-62: the loop over [enumerate(ctc_dict)], started at index [i]. *)
Fixpoint ts_entries (i : nat) (ctc_dict : list string) : string :=
  match ctc_dict with
  | [] => ""
  | char :: rest => ts_line i char +:+ ts_entries (S i) rest
  end.

(** Lines 42-63: everything written to the TypeScript file. *)
Definition ts_text (ctc_dict : list string) : string :=
  ("// Character dictionary extracted from inference.yml" +:+ newline)
  +:+ ("// Index 0 is the blank token (CTC requirement)" +:+ newline)
  +:+ ("// Total characters: " +:+ pretty (length ctc_dict) +:+ newline +:+ newline)
  +:+ ("export const CHARACTER_DICT: string[] = [" +:+ newline)
  +:+ ts_entries 0 ctc_dict
  +:+ ("];" +:+ newline).

(** The parsed [inference.yml], as far as the script reads it: sections
    by name, each mapping keys to lists of strings. *)
Definition Config : Type := gmap string (gmap string (list string)).

(** What a call leaves behind: the returned list, the object handed to
    [json.dump] with its path, and the text of the TypeScript file with its
    path. *)
Record Outcome : Type := {
  returned : list string;
  json_dumped : option (string * list string);
  ts_written : option (string * string)
}.

(** [if output_json:] on an argument that is [None] or a string. *)
Definition truthy (path : option string) : option string :=
  match path with
  | Some p => if String.eqb p "" then None else Some p
  | None => None
  end.

(** extract_character_dict (lines 12-66), from the parsed configuration on:
    the opening and parsing of the file come before, and may raise; the
    prints and the writes are taken to succeed, so a [Val] stands for a
    call in which they did. *)
Definition extract_character_dict (config : Config) (output_json output_ts : option string)
    : exc Outcome :=
  let postprocess := default ∅ (config !! "PostProcess") in
  let char_dict := default [] (postprocess !! "character_dict") in
  match char_dict with
  | [] => Raised "character_dict not found"
  | _ =>
      let ctc_dict := char_dict in
      Val {| returned := ctc_dict;
             json_dumped := (fun p => (p, ctc_dict)) <$> truthy output_json;
             ts_written := (fun p => (p, ts_text ctc_dict)) <$> truthy output_ts |}
  end.

End CharDict.

(** * Properties *)

(** ** Sanity checks of the embedding against the repository's tests *)

Example resize_meta_200 : compute_det_resize_meta 200 200 960 = (960%Z, 960%Z, 960 # 200).
Proof. reflexivity. Qed.

Example resize_meta_200_300 : compute_det_resize_meta 200 300 960 = (640%Z, 960%Z, 960 # 300).
Proof. reflexivity. Qed.

Example py_round_ties_to_even :
  py_round (1 # 2) = 0%Z /\ py_round (3 # 2) = 2%Z /\ py_round (5 # 2) = 2%Z /\
  py_round (- (1 # 2)) = 0%Z /\ py_round (48 # 100) = 0%Z /\ py_round (51 # 100) = 1%Z.
Proof. repeat split; reflexivity. Qed.

Example py_int_truncates :
  py_int (12857 # 10) = 1285%Z /\ py_int (- (12857 # 10)) = (-1285)%Z.
Proof. split; reflexivity. Qed.

(** ** Comparisons and rounding *)

Lemma Qltb_lt (x y : Q) : Qltb x y = true <-> x < y.
Proof.
  unfold Qltb. rewrite negb_true_iff, <- not_true_iff_false, Qle_bool_iff.
  split; [apply Qnot_le_lt | apply Qlt_not_le].
Qed.

Lemma Qltb_ge (x y : Q) : Qltb x y = false <-> y <= x.
Proof.
  unfold Qltb. rewrite negb_false_iff, Qle_bool_iff. reflexivity.
Qed.

Lemma py_round_comp (x y : Q) : x == y -> py_round x = py_round y.
Proof.
  intros E. unfold py_round.
  rewrite (Qfloor_comp _ _ E).
  assert (C : Qcompare (x - inject_Z (Qfloor y)) (1 # 2)
            = Qcompare (y - inject_Z (Qfloor y)) (1 # 2)).
  { apply Qcompare_comp; [rewrite E|]; reflexivity. }
  rewrite C. reflexivity.
Qed.

Lemma py_round_inject_Z (z : Z) : py_round (inject_Z z) = z.
Proof.
  unfold py_round. rewrite Qfloor_Z.
  assert (C : Qcompare (inject_Z z - inject_Z z) (1 # 2) = Lt).
  { rewrite <- Qlt_alt. lra. }
  rewrite C. reflexivity.
Qed.

(** The floor brackets its argument. *)
Lemma Qfloor_bracket (x : Q) :
  inject_Z (Qfloor x) <= x /\ x < inject_Z (Qfloor x) + 1.
Proof.
  split; [apply Qfloor_le|].
  pose proof (Qlt_floor x) as H. rewrite inject_Z_plus in H. exact H.
Qed.

(** [py_round] returns an integer at distance at most one half. *)
Lemma py_round_nearest (x : Q) :
  x - (1 # 2) <= inject_Z (py_round x) /\ inject_Z (py_round x) <= x + (1 # 2).
Proof.
  unfold py_round. cbv zeta. destruct (Qfloor_bracket x) as [Hl Hu].
  destruct (Qcompare (x - inject_Z (Qfloor x)) (1 # 2)) eqn:C.
  - apply Qeq_alt in C.
    destruct (Z.even (Qfloor x)); [|rewrite inject_Z_plus; change (inject_Z 1) with 1];
      split; lra.
  - apply Qlt_alt in C. split; lra.
  - apply Qgt_alt in C. rewrite inject_Z_plus. change (inject_Z 1) with 1. split; lra.
Qed.

Lemma inject_Z_nonneg (z : Z) : - (1) < inject_Z z -> (0 <= z)%Z.
Proof.
  intros H. destruct (Z_lt_le_dec z 0) as [Hz|Hz]; [|exact Hz].
  assert (Hq : inject_Z z <= inject_Z (-1)) by (rewrite <- Zle_Qle; lia).
  change (inject_Z (-1)) with (- (1)) in Hq. lra.
Qed.

(** The rounded value is positive exactly above one half. *)
Lemma py_round_pos_iff (x : Q) : (0 < py_round x)%Z <-> (1 # 2) < x.
Proof.
  unfold py_round. cbv zeta. destruct (Qfloor_bracket x) as [Hl Hu].
  destruct (Qcompare (x - inject_Z (Qfloor x)) (1 # 2)) eqn:C.
  - apply Qeq_alt in C.
    destruct (Z.even (Qfloor x)) eqn:E.
    + split; intros H.
      * assert (Hq : inject_Z 1 <= inject_Z (Qfloor x)) by (rewrite <- Zle_Qle; lia).
        change (inject_Z 1) with 1 in Hq. lra.
      * assert (Hf : (0 <= Qfloor x)%Z) by (apply inject_Z_nonneg; lra).
        assert (Qfloor x <> 0)%Z.
        { intros E0. rewrite E0 in C. change (inject_Z 0) with 0 in C. lra. }
        lia.
    + split; intros H.
      * assert (Qfloor x <> 0)%Z by (intros E0; rewrite E0 in E; discriminate).
        assert (Hq : inject_Z 1 <= inject_Z (Qfloor x)) by (rewrite <- Zle_Qle; lia).
        change (inject_Z 1) with 1 in Hq. lra.
      * assert (Hf : (0 <= Qfloor x)%Z) by (apply inject_Z_nonneg; lra). lia.
  - apply Qlt_alt in C. split; intros H.
    + assert (Hq : inject_Z 1 <= inject_Z (Qfloor x)) by (rewrite <- Zle_Qle; lia).
      change (inject_Z 1) with 1 in Hq. lra.
    + assert (Hf : (0 <= Qfloor x)%Z) by (apply inject_Z_nonneg; lra).
      assert (Qfloor x <> 0)%Z.
      { intros E0. rewrite E0 in C. change (inject_Z 0) with 0 in C. lra. }
      lia.
  - apply Qgt_alt in C. split; intros H.
    + assert (Hq : inject_Z 0 <= inject_Z (Qfloor x)) by (rewrite <- Zle_Qle; lia).
      change (inject_Z 0) with 0 in Hq. lra.
    + assert (Hf : (0 <= Qfloor x)%Z) by (apply inject_Z_nonneg; lra). lia.
Qed.

Lemma py_round_nonneg (x : Q) : 0 <= x -> (0 <= py_round x)%Z.
Proof.
  intros H. apply inject_Z_nonneg.
  pose proof (py_round_nearest x) as [Hl _]. lra.
Qed.

Lemma np_clip_bounds (a lo hi : Q) : lo <= hi -> lo <= np_clip a lo hi /\ np_clip a lo hi <= hi.
Proof.
  intros H. unfold np_clip. split.
  - apply Q.min_glb; [exact H | apply Q.le_max_r].
  - apply Q.le_min_l.
Qed.

(** ** Resize metadata *)

(** C6, as stated, fails: an image one pixel high and 2000 wide, resized to
    a long side of 960, has scale 0.48 and a resized height of
    [round(0.48) = 0], which is not positive. *)
Lemma resize_meta_height_can_be_zero :
  (0 < 1)%Z /\ (0 < 2000)%Z /\ (0 < 960)%Z /\
  fst (fst (compute_det_resize_meta 1 2000 960)) = 0%Z /\
  snd (fst (compute_det_resize_meta 1 2000 960)) = 960%Z /\
  ~ (0 < fst (fst (compute_det_resize_meta 1 2000 960)))%Z.
Proof.
  repeat split; try reflexivity. vm_compute. discriminate.
Qed.

(** C6, amended: for positive dimensions and a positive target long side,
    [compute_det_resize_meta] returns a positive scale that is
    [resize_long / max(orig_h, orig_w)] up to the rounding of a double, and
    two non-negative integers, each within one half of the product of its
    side with [resize_long / max(orig_h, orig_w)], so each is that product
    rounded to a nearest integer.  The one of the longer side is
    [resize_long] itself; each is positive when its product exceeds one
    half and zero when the product is below one half. *)
Theorem compute_det_resize_meta_spec (orig_h orig_w resize_long : Z) :
  (0 < orig_h)%Z -> (0 < orig_w)%Z -> (0 < resize_long)%Z ->
  let '(resize_h, resize_w, scale) := compute_det_resize_meta orig_h orig_w resize_long in
  let ratio := inject_Z resize_long / inject_Z (Z.max orig_h orig_w) in
  0 < scale /\
  Qabs (scale - ratio) <= ratio * (1 # 9007199254740992) /\
  Qabs (inject_Z resize_h - inject_Z orig_h * ratio) <= 1 # 2 /\
  Qabs (inject_Z resize_w - inject_Z orig_w * ratio) <= 1 # 2 /\
  (0 <= resize_h)%Z /\ (0 <= resize_w)%Z /\
  ((orig_w <= orig_h)%Z -> resize_h = resize_long) /\
  ((orig_h <= orig_w)%Z -> resize_w = resize_long) /\
  (1 # 2 < inject_Z orig_h * ratio -> (0 < resize_h)%Z) /\
  (inject_Z orig_h * ratio < 1 # 2 -> resize_h = 0%Z) /\
  (1 # 2 < inject_Z orig_w * ratio -> (0 < resize_w)%Z) /\
  (inject_Z orig_w * ratio < 1 # 2 -> resize_w = 0%Z).
Proof.
  intros Hh Hw HL. unfold compute_det_resize_meta. cbv zeta.
  set (m := Z.max orig_h orig_w).
  set (scale := inject_Z resize_long / inject_Z m).
  assert (Hm : 0 < inject_Z m).
  { change 0 with (inject_Z 0). rewrite <- Zlt_Qlt. unfold m. lia. }
  assert (HLq : 0 < inject_Z resize_long).
  { change 0 with (inject_Z 0). rewrite <- Zlt_Qlt. lia. }
  assert (Hs : 0 < scale).
  { unfold scale. apply Qlt_shift_div_l; [exact Hm | lra]. }
  assert (Hhq : 0 < inject_Z orig_h).
  { change 0 with (inject_Z 0). rewrite <- Zlt_Qlt. lia. }
  assert (Hwq : 0 < inject_Z orig_w).
  { change 0 with (inject_Z 0). rewrite <- Zlt_Qlt. lia. }
  assert (Hlong : inject_Z m * scale == inject_Z resize_long).
  { unfold scale. field. lra. }
  assert (Hnear : forall x, Qabs (inject_Z (py_round x) - x) <= 1 # 2).
  { intros x. destruct (py_round_nearest x). apply Qabs_Qle_condition. split; lra. }
  assert (Hzero : forall x, 0 <= x -> x < 1 # 2 -> py_round x = 0%Z).
  { intros x H0 Hx. pose proof (py_round_nonneg x H0) as Hn.
    destruct (Z_le_gt_dec (py_round x) 0) as [Hle|Hgt]; [lia|].
    assert (Hp : (0 < py_round x)%Z) by lia.
    apply py_round_pos_iff in Hp. lra. }
  assert (Hhs : 0 <= inject_Z orig_h * scale) by (apply Qmult_le_0_compat; lra).
  assert (Hws : 0 <= inject_Z orig_w * scale) by (apply Qmult_le_0_compat; lra).
  split; [exact Hs|]. split.
  { assert (E : scale - scale == 0) by ring. rewrite E. simpl Qabs.
    apply Qmult_le_0_compat; [lra | discriminate]. }
  split; [apply Hnear|]. split; [apply Hnear|].
  split; [apply py_round_nonneg, Hhs|]. split; [apply py_round_nonneg, Hws|].
  split.
  { intros Hle. replace orig_h with m by (unfold m; lia).
    rewrite (py_round_comp _ _ Hlong). apply py_round_inject_Z. }
  split.
  { intros Hle. replace orig_w with m by (unfold m; lia).
    rewrite (py_round_comp _ _ Hlong). apply py_round_inject_Z. }
  split; [apply py_round_pos_iff|]. split; [apply Hzero, Hhs|].
  split; [apply py_round_pos_iff | apply Hzero, Hws].
Qed.

Lemma compute_det_resize_meta_spec_witness :
  let '(resize_h, resize_w, scale) := compute_det_resize_meta 200 300 960 in
  let ratio := inject_Z 960 / inject_Z (Z.max 200 300) in
  0 < scale /\
  Qabs (scale - ratio) <= ratio * (1 # 9007199254740992) /\
  Qabs (inject_Z resize_h - inject_Z 200 * ratio) <= 1 # 2 /\
  Qabs (inject_Z resize_w - inject_Z 300 * ratio) <= 1 # 2 /\
  (0 <= resize_h)%Z /\ (0 <= resize_w)%Z /\
  ((300 <= 200)%Z -> resize_h = 960%Z) /\
  ((200 <= 300)%Z -> resize_w = 960%Z) /\
  (1 # 2 < inject_Z 200 * ratio -> (0 < resize_h)%Z) /\
  (inject_Z 200 * ratio < 1 # 2 -> resize_h = 0%Z) /\
  (1 # 2 < inject_Z 300 * ratio -> (0 < resize_w)%Z) /\
  (inject_Z 300 * ratio < 1 # 2 -> resize_w = 0%Z).
Proof.
  apply (compute_det_resize_meta_spec 200 300 960); lia.
Defined.

(** ** Binarisation *)

Lemma binarize_at2 (prob_map : ProbMap) (thresh : Q) (r c : nat) :
  at2 (binarize prob_map thresh) r c
  = (fun p => ((if Qltb thresh p then 1 else 0) * 255)%Z) <$> at2 prob_map r c.
Proof.
  unfold at2, binarize, ProbMap in *. rewrite list_lookup_fmap.
  destruct (prob_map !! r) as [row|]; simpl; [|reflexivity].
  rewrite list_lookup_fmap. destruct (row !! c); reflexivity.
Qed.

(** C8: the binary map has the shape of the probability map and is defined
    at every pixel of it; a pixel is 255 when its probability strictly
    exceeds the threshold and 0 otherwise, so it is foreground if and only
    if the probability is strictly above the threshold, and a probability
    equal to the threshold gives background. *)
Theorem binarize_strict (prob_map : ProbMap) (thresh : Q) (r c : nat) (p : Q) :
  at2 prob_map r c = Some p ->
  shape (binarize prob_map thresh) = shape prob_map /\
  exists v, at2 (binarize prob_map thresh) r c = Some v /\
    (v = 255%Z \/ v = 0%Z) /\
    (foreground v = true <-> thresh < p) /\
    (p == thresh -> foreground v = false).
Proof.
  intros Hp. split.
  - unfold shape, binarize. rewrite length_fmap.
    destruct prob_map; simpl; [reflexivity|]. rewrite length_fmap. reflexivity.
  - rewrite binarize_at2, Hp. simpl. eexists. split; [reflexivity|].
    destruct (Qltb thresh p) eqn:E.
    + apply Qltb_lt in E. repeat split; auto.
      intros Heq. rewrite Heq in E. exfalso. revert E. apply Qlt_irrefl.
    + apply Qltb_ge in E. repeat split; auto; try discriminate.
      intros Hlt. exfalso. apply (Qlt_not_le _ _ Hlt E).
Qed.

Lemma binarize_strict_witness :
  shape (binarize [[3 # 10; 31 # 100]] (3 # 10)) = shape [[3 # 10; 31 # 100]] /\
  exists v, at2 (binarize [[3 # 10; 31 # 100]] (3 # 10)) 0 0 = Some v /\
    (v = 255%Z \/ v = 0%Z) /\
    (foreground v = true <-> 3 # 10 < 3 # 10) /\
    (3 # 10 == 3 # 10 -> foreground v = false).
Proof.
  apply (binarize_strict [[3 # 10; 31 # 100]] (3 # 10) 0 0 (3 # 10)). reflexivity.
Defined.

(** ** Orientation *)

Lemma orientation_sum_one (a : Point) : orientation_sum [a] = 0.
Proof.
  reflexivity.
Qed.

Lemma orientation_sum_cons (a b : Point) (rest : Polygon) :
  orientation_sum (a :: b :: rest) = edge_term a b + orientation_sum (b :: rest).
Proof.
  reflexivity.
Qed.

Lemma ensure_clockwise_cases (polygon : Polygon) :
  (is_clockwise polygon = true /\ ensure_clockwise polygon = polygon) \/
  (is_clockwise polygon = false /\ ensure_clockwise polygon = rev polygon).
Proof.
  unfold ensure_clockwise. destruct (is_clockwise polygon); [left|right]; auto.
Qed.

Lemma length_ensure_clockwise (polygon : Polygon) :
  length (ensure_clockwise polygon) = length polygon.
Proof.
  unfold ensure_clockwise. destruct (negb _); [apply List.length_rev | reflexivity].
Qed.

(** ** Scaling and clipping *)

Lemma scale_and_clip_map (scale : Q) (orig_h orig_w : Z) (polygon : Polygon) :
  scale_and_clip scale orig_h orig_w polygon
  = map (fun p => (np_clip (fst p / scale) 0 (inject_Z orig_w),
                   np_clip (snd p / scale) 0 (inject_Z orig_h))) polygon.
Proof.
  unfold scale_and_clip, on_col0, on_col1. rewrite !map_map. reflexivity.
Qed.

Lemma length_scale_and_clip (scale : Q) (orig_h orig_w : Z) (polygon : Polygon) :
  length (scale_and_clip scale orig_h orig_w polygon) = length polygon.
Proof. rewrite scale_and_clip_map. apply length_map. Qed.

(** ** Truncation and the selection of the largest ring *)



Lemma py_max_by_ge_best {A : Type} (key : A -> Q) (rest : list A) (best : A) :
  key best <= key (py_max_by key best rest).
Proof.
  revert best. induction rest as [|item rest IH]; intros best; simpl.
  - apply Qle_refl.
  - destruct (Qltb (key best) (key item)) eqn:E.
    + apply Qltb_lt in E. apply Qle_trans with (key item); [apply Qlt_le_weak, E | apply IH].
    + apply IH.
Qed.

Lemma py_max_by_greatest {A : Type} (key : A -> Q) (rest : list A) (best x : A) :
  x ∈ best :: rest -> key x <= key (py_max_by key best rest).
Proof.
  revert best. induction rest as [|item rest IH]; intros best Hx; simpl.
  - apply list_elem_of_singleton in Hx as ->. apply Qle_refl.
  - apply elem_of_cons in Hx as [->|Hx].
    + destruct (Qltb (key best) (key item)) eqn:E.
      * apply Qltb_lt in E.
        apply Qle_trans with (key item); [apply Qlt_le_weak, E | apply py_max_by_ge_best].
      * apply py_max_by_ge_best.
    + destruct (Qltb (key best) (key item)) eqn:E.
      * apply IH, Hx.
      * apply Qltb_ge in E. apply elem_of_cons in Hx as [->|Hx].
        -- apply Qle_trans with (key best); [exact E | apply py_max_by_ge_best].
        -- apply IH. apply list_elem_of_further, Hx.
Qed.

(** ** unclip *)

Lemma expansion_stage_None (call : exc (option Polygon)) :
  expansion_stage call = None <->
  (exists msg, call = Raised msg) \/ call = Val None \/
  (exists expanded, call = Val (Some expanded) /\ (length expanded < 3)%nat).
Proof.
  unfold expansion_stage. destruct call as [[expanded|]|msg].
  - destruct (Nat.ltb_spec (length expanded) 3) as [Hlt|Hge].
    + split; [|reflexivity]. intros _. right. right. eauto.
    + split; [discriminate|]. intros [[msg Hm]|[Hn|[e [He Hlen]]]]; try discriminate.
      injection He as ->. lia.
  - split; auto.
  - split; eauto.
Qed.

Lemma expansion_stage_Some (call : exc (option Polygon)) (polygon : Polygon) :
  expansion_stage call = Some polygon ->
  call = Val (Some polygon) /\ (3 <= length polygon)%nat.
Proof.
  unfold expansion_stage. destruct call as [[expanded|]|msg]; try discriminate.
  destruct (Nat.ltb_spec (length expanded) 3) as [Hlt|Hge]; [discriminate|].
  intros [= ->]. auto.
Qed.


(** C10: [unclip] always returns, either a vertex array or [None]; it never
    raises.  Whenever the body of its [try] block raises, and so whenever
    the offsetting engine raises, the result is [None]; so it is for a
    polygon of perimeter below 1e-6. *)
Theorem unclip_never_raises (cv2 : Cv2) (pyclipper : Pyclipper)
    (polygon : Polygon) (unclip_ratio area : Q) :
  (exists r : option Polygon, unclip cv2 pyclipper polygon unclip_ratio area = Val r) /\
  (forall msg, unclip cv2 pyclipper polygon unclip_ratio area <> Raised msg) /\
  (forall msg, unclip_body cv2 pyclipper polygon unclip_ratio area = Raised msg ->
     unclip cv2 pyclipper polygon unclip_ratio area = Val None) /\
  (forall msg,
     offset_round_closed pyclipper
       (map (fun p => (py_int (fst p * SCALE), py_int (snd p * SCALE))) polygon)
       (py_int (area * unclip_ratio / arcLength cv2 polygon * SCALE)) = Raised msg ->
     unclip cv2 pyclipper polygon unclip_ratio area = Val None) /\
  (arcLength cv2 polygon < 1 # 1000000 ->
     unclip cv2 pyclipper polygon unclip_ratio area = Val None).
Proof.
  unfold unclip, try_except, unclip_body. cbv zeta.
  destruct (Qltb (arcLength cv2 polygon) (1 # 1000000)) eqn:Hp.
  - repeat split; eauto; discriminate.
  - apply Qltb_ge in Hp.
    destruct (offset_round_closed pyclipper _ _) as [[|p0 ps]|msg0]; simpl;
      repeat split; eauto; try discriminate; intros Hlt; lra.
Qed.

Lemma unclip_never_raises_witness :
  unclip RectWorld.rect_cv2 RectWorld.raising_pyclipper
    [(1, 0); (1, 3); (5, 3); (5, 0)] (15 # 10) 12 = Val None.
Proof.
  destruct (unclip_never_raises RectWorld.rect_cv2 RectWorld.raising_pyclipper
              [(1, 0); (1, 3); (5, 3); (5, 0)] (15 # 10) 12) as (_ & _ & _ & H & _).
  apply (H "clipper error"%string). reflexivity.
Defined.




(** ** The loop over the regions *)

Section Loop.
Variable cv2 : Cv2.
Variable pyclipper : Pyclipper.
Variable prob_map : ProbMap.
Variables orig_h orig_w : Z.
Variables scale box_thresh unclip_ratio min_area : Q.
Variable max_candidates : Z.

Local Abbreviation region :=
  (region_polygon cv2 pyclipper prob_map orig_h orig_w scale box_thresh unclip_ratio min_area).
Local Abbreviation process :=
  (process_contours cv2 pyclipper prob_map orig_h orig_w scale box_thresh unclip_ratio
                    min_area max_candidates).

(** The loop appends, in order, the polygons of the regions that yield one,
    and stops when [cap max_candidates] polygons are held. *)
Lemma process_contours_take (contours : list Contour) (polygons : list Polygon) :
  (length polygons < cap max_candidates)%nat ->
  process contours polygons
  = polygons ++ take (cap max_candidates - length polygons) (omap region contours).
Proof.
  revert polygons. induction contours as [|contour rest IH]; intros polygons Hlt.
  - simpl. rewrite take_nil, app_nil_r. reflexivity.
  - simpl. destruct (region contour) as [polygon|]; [|apply IH, Hlt].
    destruct (cap max_candidates - length polygons)%nat as [|k] eqn:Hk; [lia|].
    simpl. rewrite length_app. simpl.
    destruct (Z.leb_spec max_candidates (Z.of_nat (length polygons + 1))) as [Hle|Hgt].
    + assert (k = 0%nat) by (unfold cap in *; lia). subst k. rewrite take_0. reflexivity.
    + rewrite IH.
      * rewrite length_app. simpl. rewrite <- app_assoc. simpl.
        replace (cap max_candidates - (length polygons + 1))%nat with k by lia.
        reflexivity.
      * rewrite length_app. simpl. unfold cap in *. lia.
Qed.

Lemma region_skipped (pre post : list Contour) (contour : Contour) :
  region contour = None ->
  omap region (pre ++ contour :: post) = omap region (pre ++ post).
Proof.
  intros Hn. rewrite !omap_app. simpl. rewrite Hn. reflexivity.
Qed.

Lemma process_contours_skip (pre post : list Contour) (contour : Contour)
    (polygons : list Polygon) :
  (length polygons < cap max_candidates)%nat ->
  region contour = None ->
  process (pre ++ contour :: post) polygons = process (pre ++ post) polygons.
Proof.
  intros Hlt Hn. rewrite !process_contours_take by exact Hlt.
  rewrite (region_skipped _ _ _ Hn). reflexivity.
Qed.

End Loop.

Lemma cap_pos (max_candidates : Z) : (0 < cap max_candidates)%nat.
Proof. unfold cap. lia. Qed.

Lemma cap_of_pos (max_candidates : Z) :
  (1 <= max_candidates)%Z -> Z.of_nat (cap max_candidates) = max_candidates.
Proof. unfold cap. lia. Qed.

(** The whole function: the first [cap max_candidates] polygons, in
    discovery order, of the regions that yield one. *)
Lemma db_postprocess_take (cv2 : Cv2) (pyclipper : Pyclipper) (prob_map : ProbMap)
    (orig_h orig_w : Z) (resize_shape : Z * Z) (scale thresh box_thresh unclip_ratio : Q)
    (max_candidates : Z) (min_area : Q) :
  db_postprocess cv2 pyclipper prob_map (orig_h, orig_w) resize_shape scale thresh box_thresh
                 unclip_ratio max_candidates min_area
  = take (cap max_candidates)
      (omap (region_polygon cv2 pyclipper prob_map orig_h orig_w scale box_thresh
                            unclip_ratio min_area)
            (findContours cv2 (binarize prob_map thresh))).
Proof.
  unfold db_postprocess. cbv zeta.
  destruct (findContours cv2 (binarize prob_map thresh)) as [|c cs] eqn:E.
  - simpl. rewrite take_nil. reflexivity.
  - change (length (c :: cs) =? 0)%nat with false. cbv iota.
    rewrite process_contours_take by (simpl; apply cap_pos).
    simpl length. rewrite Nat.sub_0_r. reflexivity.
Qed.

Lemma db_postprocess_process (cv2 : Cv2) (pyclipper : Pyclipper) (prob_map : ProbMap)
    (orig_h orig_w : Z) (resize_shape : Z * Z) (scale thresh box_thresh unclip_ratio : Q)
    (max_candidates : Z) (min_area : Q) :
  db_postprocess cv2 pyclipper prob_map (orig_h, orig_w) resize_shape scale thresh box_thresh
                 unclip_ratio max_candidates min_area
  = process_contours cv2 pyclipper prob_map orig_h orig_w scale box_thresh unclip_ratio
      min_area max_candidates (findContours cv2 (binarize prob_map thresh)) [].
Proof.
  rewrite db_postprocess_take, process_contours_take by (simpl; apply cap_pos).
  simpl. rewrite Nat.sub_0_r. reflexivity.
Qed.

(** Every returned polygon is the polygon of an extracted region. *)
Lemma db_postprocess_elem (cv2 : Cv2) (pyclipper : Pyclipper) (prob_map : ProbMap)
    (orig_h orig_w : Z) (resize_shape : Z * Z) (scale thresh box_thresh unclip_ratio : Q)
    (max_candidates : Z) (min_area : Q) (polygon : Polygon) :
  polygon ∈ db_postprocess cv2 pyclipper prob_map (orig_h, orig_w) resize_shape scale thresh
              box_thresh unclip_ratio max_candidates min_area ->
  exists contour,
    contour ∈ findContours cv2 (binarize prob_map thresh) /\
    region_polygon cv2 pyclipper prob_map orig_h orig_w scale box_thresh unclip_ratio
                   min_area contour = Some polygon.
Proof.
  rewrite db_postprocess_take. intros Hin.
  apply elem_of_take in Hin as (i & Hi & _).
  apply list_elem_of_lookup_2 in Hi. apply list_elem_of_omap in Hi. exact Hi.
Qed.

(** ** One region *)

Lemma expand_region_Some (cv2 : Cv2) (pyclipper : Pyclipper) (unclip_ratio : Q)
    (contour : Contour) (expanded : Polygon) :
  expand_region cv2 pyclipper unclip_ratio contour = Some expanded ->
  let approx := approxPolyDP cv2 contour ((5 # 1000) * arcLength cv2 (to_float contour)) in
  (3 <= length approx)%nat /\
  unclip cv2 pyclipper (to_float approx) unclip_ratio (contourArea contour)
    = Val (Some expanded) /\
  (3 <= length expanded)%nat.
Proof.
  unfold expand_region. cbv zeta.
  match goal with |- context [Nat.ltb ?n 3] => destruct (Nat.ltb_spec n 3) as [Hlt|Hge] end;
    [discriminate|].
  intros Hs. apply expansion_stage_Some in Hs as [Hu Hl]. auto.
Qed.

Lemma region_polygon_Some (cv2 : Cv2) (pyclipper : Pyclipper) (prob_map : ProbMap)
    (orig_h orig_w : Z) (scale box_thresh unclip_ratio min_area : Q)
    (contour : Contour) (polygon : Polygon) :
  region_polygon cv2 pyclipper prob_map orig_h orig_w scale box_thresh unclip_ratio min_area
                 contour = Some polygon ->
  passes_area min_area contour = true /\
  passes_score cv2 prob_map box_thresh contour = true /\
  exists expanded,
    expand_region cv2 pyclipper unclip_ratio contour = Some expanded /\
    polygon = ensure_clockwise (scale_and_clip scale orig_h orig_w expanded).
Proof.
  unfold region_polygon.
  destruct (passes_area min_area contour); [|discriminate].
  destruct (passes_score cv2 prob_map box_thresh contour); [|discriminate].
  simpl. destruct (expand_region cv2 pyclipper unclip_ratio contour) as [expanded|];
    [|discriminate].
  intros [= <-]. eauto.
Qed.


Lemma passes_area_true (min_area : Q) (contour : Contour) :
  passes_area min_area contour = true <-> min_area <= Qabs (shoelace_area contour).
Proof.
  unfold passes_area, contourArea. rewrite negb_true_iff. apply Qltb_ge.
Qed.


Lemma passes_score_true (cv2 : Cv2) (prob_map : ProbMap) (box_thresh : Q) (contour : Contour) :
  passes_score cv2 prob_map box_thresh contour = true <->
  forall m, mean_score cv2 prob_map contour = Some m -> box_thresh <= m.
Proof.
  unfold passes_score. rewrite negb_true_iff.
  destruct (mean_score cv2 prob_map contour) as [m|]; simpl.
  - rewrite Qltb_ge. split; [intros H m' [= <-]; exact H | intros H; apply H; reflexivity].
  - split; [intros _ m' Hm; discriminate | reflexivity].
Qed.

Lemma omap_length_le {A B : Type} (f g : A -> option B) (l : list A) :
  (forall a b, a ∈ l -> f a = Some b -> exists b', g a = Some b') ->
  (length (omap f l) <= length (omap g l))%nat.
Proof.
  induction l as [|a l IH]; intros H; simpl; [lia|].
  assert (IH' : (length (omap f l) <= length (omap g l))%nat).
  { apply IH. intros a' b' Hin. apply H. apply list_elem_of_further, Hin. }
  destruct (f a) as [b|] eqn:E.
  - destruct (H a b (list_elem_of_here _ _) E) as [b' ->]. simpl.
    apply le_n_S. exact IH'.
  - destruct (g a); simpl; [apply le_S|]; exact IH'.
Qed.

(** ** The returned polygons *)






Lemma scale_and_clip_in_bounds (scale : Q) (orig_h orig_w : Z) (expanded : Polygon) :
  (0 <= orig_h)%Z -> (0 <= orig_w)%Z ->
  Forall (in_bounds orig_h orig_w) (scale_and_clip scale orig_h orig_w expanded).
Proof.
  intros Hh Hw. rewrite scale_and_clip_map.
  assert (0 <= inject_Z orig_h) by (change 0 with (inject_Z 0); rewrite <- Zle_Qle; lia).
  assert (0 <= inject_Z orig_w) by (change 0 with (inject_Z 0); rewrite <- Zle_Qle; lia).
  induction expanded as [|v rest IH]; simpl; constructor; [|exact IH].
  unfold in_bounds. simpl.
  destruct (np_clip_bounds (fst v / scale) 0 (inject_Z orig_w)); [assumption|].
  destruct (np_clip_bounds (snd v / scale) 0 (inject_Z orig_h)); [assumption|].
  auto.
Qed.

(** C2: with a positive scale factor and the dimensions of an image, every
    returned polygon has at least three vertices; it is the ring [unclip]
    returned for a region, itself of at least three vertices, with every
    coordinate divided by the scale and then clipped, x into
    [0, orig_w] and y into [0, orig_h], vertex by vertex, in the same or in
    reversed order; so all its vertices lie in the image rectangle. *)
Theorem db_postprocess_polygons_clipped (cv2 : Cv2) (pyclipper : Pyclipper)
    (prob_map : ProbMap) (orig_h orig_w : Z) (resize_shape : Z * Z)
    (scale thresh box_thresh unclip_ratio : Q) (max_candidates : Z) (min_area : Q)
    (polygon : Polygon) :
  0 < scale -> (0 < orig_h)%Z -> (0 < orig_w)%Z ->
  polygon ∈ db_postprocess cv2 pyclipper prob_map (orig_h, orig_w) resize_shape scale thresh
              box_thresh unclip_ratio max_candidates min_area ->
  (3 <= length polygon)%nat /\
  (exists contour expanded,
     contour ∈ findContours cv2 (binarize prob_map thresh) /\
     unclip cv2 pyclipper
       (to_float (approxPolyDP cv2 contour ((5 # 1000) * arcLength cv2 (to_float contour))))
       unclip_ratio (contourArea contour) = Val (Some expanded) /\
     (3 <= length expanded)%nat /\
     let clipped :=
       map (fun v => (np_clip (fst v / scale) 0 (inject_Z orig_w),
                      np_clip (snd v / scale) 0 (inject_Z orig_h))) expanded in
     (polygon = clipped \/ polygon = rev clipped)) /\
  Forall (in_bounds orig_h orig_w) polygon.
Proof.
  intros Hs Hh Hw Hin. apply db_postprocess_elem in Hin as (contour & Hc & Hr).
  apply region_polygon_Some in Hr as (_ & _ & expanded & He & ->).
  apply expand_region_Some in He as (_ & Hu & Hl).
  assert (Hb : Forall (in_bounds orig_h orig_w) (scale_and_clip scale orig_h orig_w expanded))
    by (apply scale_and_clip_in_bounds; lia).
  split; [|split].
  - rewrite length_ensure_clockwise, length_scale_and_clip. exact Hl.
  - exists contour, expanded. repeat split; try assumption. cbv zeta.
    rewrite <- scale_and_clip_map.
    destruct (ensure_clockwise_cases (scale_and_clip scale orig_h orig_w expanded))
      as [[_ ->]|[_ ->]]; auto.
  - destruct (ensure_clockwise_cases (scale_and_clip scale orig_h orig_w expanded))
      as [[_ ->]|[_ ->]]; [exact Hb|].
    rewrite rev_alt. apply (Forall_reverse (in_bounds orig_h orig_w)). exact Hb.
Qed.

Lemma db_postprocess_polygons_clipped_witness :
  exists polygon,
    polygon ∈ db_postprocess RectWorld.rect_cv2 RectWorld.box_pyclipper RectWorld.top_map
                (5, 7)%Z (5, 7)%Z 1 default_thresh default_box_thresh default_unclip_ratio
                default_max_candidates 10 /\
    (3 <= length polygon)%nat /\
    Forall (in_bounds 5 7) polygon.
Proof.
  assert (E : exists polygon,
             db_postprocess RectWorld.rect_cv2 RectWorld.box_pyclipper RectWorld.top_map
               (5, 7)%Z (5, 7)%Z 1 default_thresh default_box_thresh default_unclip_ratio
               default_max_candidates 10 = [polygon]).
  { remember (db_postprocess _ _ _ _ _ _ _ _ _ _ _) as out eqn:E.
    vm_compute in E. subst out. eexists. reflexivity. }
  destruct E as [polygon E]. exists polygon.
  assert (Hin : polygon ∈ db_postprocess RectWorld.rect_cv2 RectWorld.box_pyclipper
                  RectWorld.top_map (5, 7)%Z (5, 7)%Z 1 default_thresh default_box_thresh
                  default_unclip_ratio default_max_candidates 10).
  { rewrite E. apply list_elem_of_here. }
  split; [exact Hin|].
  destruct (db_postprocess_polygons_clipped RectWorld.rect_cv2 RectWorld.box_pyclipper
              RectWorld.top_map 5 7 (5, 7)%Z 1 default_thresh default_box_thresh
              default_unclip_ratio default_max_candidates 10 polygon)
    as (Hlen & _ & Hb); [reflexivity | lia | lia | exact Hin |].
  split; [exact Hlen | exact Hb].
Defined.

(** ** The cap on the number of polygons *)

(** With a cap of at least one the function returns at most that many
    polygons. *)
Lemma db_postprocess_length_le_cap (cv2 : Cv2) (pyclipper : Pyclipper) (prob_map : ProbMap)
    (orig_shape resize_shape : Z * Z) (scale thresh box_thresh unclip_ratio : Q)
    (max_candidates : Z) (min_area : Q) :
  (1 <= max_candidates)%Z ->
  (Z.of_nat (length (db_postprocess cv2 pyclipper prob_map orig_shape resize_shape scale
                       thresh box_thresh unclip_ratio max_candidates min_area))
   <= max_candidates)%Z.
Proof.
  intros Hm. destruct orig_shape as [orig_h orig_w].
  rewrite db_postprocess_take, length_take.
  rewrite <- (cap_of_pos max_candidates Hm) at 2. lia.
Qed.

(** C3 at [max_candidates = 0]: the [break] test follows the [append], so
    the first region that yields a polygon is accepted before the count is
    compared with the cap, and one polygon is returned where the cap allows
    none. *)
Theorem db_postprocess_zero_cap_returns_one :
  length (db_postprocess RectWorld.rect_cv2 RectWorld.box_pyclipper RectWorld.top_map
            (5, 7)%Z (5, 7)%Z 1 default_thresh default_box_thresh default_unclip_ratio
            0 10) = 1%nat /\
  ~ (Z.of_nat (length (db_postprocess RectWorld.rect_cv2 RectWorld.box_pyclipper
                         RectWorld.top_map (5, 7)%Z (5, 7)%Z 1 default_thresh
                         default_box_thresh default_unclip_ratio 0 10)) <= 0)%Z.
Proof.
  assert (E : length (db_postprocess RectWorld.rect_cv2 RectWorld.box_pyclipper
                        RectWorld.top_map (5, 7)%Z (5, 7)%Z 1 default_thresh
                        default_box_thresh default_unclip_ratio 0 10) = 1%nat)
    by (vm_compute; reflexivity).
  split; [exact E | rewrite E; lia].
Qed.

(** ** Failures of the expansion *)

(** C5: each of the three failures of the guarded call of [unclip], a raised
    exception, a [None] result, a result of fewer than three vertices, ends
    the iteration without a polygon; and a region whose expansion fails
    leaves the function's result what the remaining regions alone give. *)
Theorem expansion_failure_skips_region (cv2 : Cv2) (pyclipper : Pyclipper)
    (prob_map : ProbMap) (orig_h orig_w : Z) (resize_shape : Z * Z)
    (scale thresh box_thresh unclip_ratio : Q) (max_candidates : Z) (min_area : Q)
    (pre post : list Contour) (contour : Contour) :
  findContours cv2 (binarize prob_map thresh) = pre ++ contour :: post ->
  expansion_stage
    (unclip cv2 pyclipper
       (to_float (approxPolyDP cv2 contour ((5 # 1000) * arcLength cv2 (to_float contour))))
       unclip_ratio (contourArea contour)) = None ->
  (forall call : exc (option Polygon),
     ((exists msg, call = Raised msg) \/ call = Val None \/
      (exists expanded, call = Val (Some expanded) /\ (length expanded < 3)%nat)) ->
     expansion_stage call = None) /\
  region_polygon cv2 pyclipper prob_map orig_h orig_w scale box_thresh unclip_ratio min_area
                 contour = None /\
  db_postprocess cv2 pyclipper prob_map (orig_h, orig_w) resize_shape scale thresh box_thresh
                 unclip_ratio max_candidates min_area
  = process_contours cv2 pyclipper prob_map orig_h orig_w scale box_thresh unclip_ratio
      min_area max_candidates (pre ++ post) [].
Proof.
  intros Hc Hfail.
  assert (Hr : region_polygon cv2 pyclipper prob_map orig_h orig_w scale box_thresh
                 unclip_ratio min_area contour = None).
  { unfold region_polygon.
    destruct (negb (passes_area min_area contour)); [reflexivity|].
    destruct (negb (passes_score cv2 prob_map box_thresh contour)); [reflexivity|].
    unfold expand_region. cbv zeta. rewrite Hfail.
    destruct (Nat.ltb _ 3); reflexivity. }
  split; [|split].
  - intros call. apply expansion_stage_None.
  - exact Hr.
  - rewrite db_postprocess_process, Hc.
    apply process_contours_skip; [simpl; apply cap_pos | exact Hr].
Qed.

Lemma expansion_failure_skips_region_witness :
  db_postprocess RectWorld.rect_cv2 RectWorld.raising_pyclipper RectWorld.top_map
    (5, 7)%Z (5, 7)%Z 1 default_thresh default_box_thresh default_unclip_ratio
    default_max_candidates 10
  = process_contours RectWorld.rect_cv2 RectWorld.raising_pyclipper RectWorld.top_map
      5 7 1 default_box_thresh default_unclip_ratio 10 default_max_candidates ([] ++ []) [].
Proof.
  apply (expansion_failure_skips_region RectWorld.rect_cv2 RectWorld.raising_pyclipper
           RectWorld.top_map 5 7 (5, 7)%Z 1 default_thresh default_box_thresh
           default_unclip_ratio default_max_candidates 10
           [] [] [(1, 0); (1, 3); (5, 3); (5, 0)]%Z).
  - vm_compute. reflexivity.
  - vm_compute. reflexivity.
Defined.

(** ** Filtering, scoring and order *)






(** ** Monotonicity in the box threshold *)

(** C9, as stated, fails when the binarisation threshold is lowered: on a
    block of probability 0.9 inside a map of probability 0.35, thresholds
    0.5 and 0.6 give one polygon, and the lower thresholds 0.3 and 0.55 give
    none, since the one region is then the whole map, of mean score below
    0.55. *)
Lemma lower_thresh_loses_polygon :
  3 # 10 <= 5 # 10 /\ 55 # 100 <= 6 # 10 /\
  length (db_postprocess RectWorld.rect_cv2 RectWorld.box_pyclipper RectWorld.halo_map
            (7, 9)%Z (7, 9)%Z 1 (5 # 10) (6 # 10) default_unclip_ratio
            default_max_candidates 5) = 1%nat /\
  length (db_postprocess RectWorld.rect_cv2 RectWorld.box_pyclipper RectWorld.halo_map
            (7, 9)%Z (7, 9)%Z 1 (3 # 10) (55 # 100) default_unclip_ratio
            default_max_candidates 5) = 0%nat.
Proof.
  split; [discriminate|]. split; [discriminate|].
  split; vm_compute; reflexivity.
Qed.

Lemma passes_score_antitone (cv2 : Cv2) (prob_map : ProbMap) (lower upper : Q)
    (contour : Contour) :
  lower <= upper ->
  passes_score cv2 prob_map upper contour = true ->
  passes_score cv2 prob_map lower contour = true.
Proof.
  intros Hle. rewrite !passes_score_true. intros H m Hm.
  apply Qle_trans with upper; [exact Hle | apply H, Hm].
Qed.

Lemma region_polygon_antitone (cv2 : Cv2) (pyclipper : Pyclipper) (prob_map : ProbMap)
    (orig_h orig_w : Z) (scale lower upper unclip_ratio min_area : Q)
    (contour : Contour) (polygon : Polygon) :
  lower <= upper ->
  region_polygon cv2 pyclipper prob_map orig_h orig_w scale upper unclip_ratio min_area
                 contour = Some polygon ->
  region_polygon cv2 pyclipper prob_map orig_h orig_w scale lower unclip_ratio min_area
                 contour = Some polygon.
Proof.
  intros Hle Hr. pose proof Hr as Hr'.
  apply region_polygon_Some in Hr' as (_ & Hs & _).
  apply (passes_score_antitone _ _ _ _ _ Hle) in Hs as Hs'.
  unfold region_polygon in *. rewrite Hs in Hr. rewrite Hs'. exact Hr.
Qed.

(** C9, amended: with the binarisation threshold and all other parameters
    fixed, a smaller or equal box score threshold never gives fewer
    polygons. *)
Theorem db_postprocess_count_antitone (cv2 : Cv2) (pyclipper : Pyclipper)
    (prob_map : ProbMap) (orig_shape resize_shape : Z * Z)
    (scale thresh lower upper unclip_ratio : Q) (max_candidates : Z) (min_area : Q) :
  lower <= upper ->
  (length (db_postprocess cv2 pyclipper prob_map orig_shape resize_shape scale thresh upper
             unclip_ratio max_candidates min_area)
   <= length (db_postprocess cv2 pyclipper prob_map orig_shape resize_shape scale thresh lower
                unclip_ratio max_candidates min_area))%nat.
Proof.
  intros Hle. destruct orig_shape as [orig_h orig_w].
  rewrite !db_postprocess_take, !length_take.
  apply Nat.min_le_compat_l, omap_length_le.
  intros contour polygon _ Hr. exists polygon.
  apply (region_polygon_antitone _ _ _ _ _ _ _ _ _ _ _ _ Hle Hr).
Qed.

Lemma db_postprocess_count_antitone_witness :
  (length (db_postprocess RectWorld.rect_cv2 RectWorld.box_pyclipper RectWorld.halo_map
             (7, 9)%Z (7, 9)%Z 1 (3 # 10) (6 # 10) default_unclip_ratio
             default_max_candidates 5)
   <= length (db_postprocess RectWorld.rect_cv2 RectWorld.box_pyclipper RectWorld.halo_map
                (7, 9)%Z (7, 9)%Z 1 (3 # 10) (4 # 10) default_unclip_ratio
                default_max_candidates 5))%nat.
Proof.
  apply (db_postprocess_count_antitone RectWorld.rect_cv2 RectWorld.box_pyclipper
           RectWorld.halo_map (7, 9)%Z (7, 9)%Z 1 (3 # 10) (4 # 10) (6 # 10)
           default_unclip_ratio default_max_candidates 5).
  discriminate.
Defined.

(** * Further properties of db_postprocess.py *)

(** ** Maps without foreground *)

Lemma binarize_row_background (thresh : Q) (row : list Q) :
  Forall (fun p => p <= thresh) row ->
  map (fun p => ((if Qltb thresh p then 1 else 0) * 255)%Z) row = map (fun _ => 0%Z) row.
Proof.
  induction 1 as [|p row Hp _ IH]; [reflexivity|].
  simpl. apply Qltb_ge in Hp. rewrite Hp, IH. reflexivity.
Qed.

(** A map with no probability above the threshold binarises to the zero
    image of its shape, and the function returns no polygon for it as soon
    as the contour finder finds nothing in a zero image. *)
Theorem db_postprocess_all_background (cv2 : Cv2) (pyclipper : Pyclipper)
    (prob_map : ProbMap) (orig_shape resize_shape : Z * Z)
    (scale thresh box_thresh unclip_ratio : Q) (max_candidates : Z) (min_area : Q) :
  Forall (Forall (fun p => p <= thresh)) prob_map ->
  findContours cv2 (map (map (fun _ => 0%Z)) prob_map) = [] ->
  binarize prob_map thresh = map (map (fun _ => 0%Z)) prob_map /\
  db_postprocess cv2 pyclipper prob_map orig_shape resize_shape scale thresh box_thresh
                 unclip_ratio max_candidates min_area = [].
Proof.
  intros Hall Hfc.
  assert (Hb : binarize prob_map thresh = map (map (fun _ => 0%Z)) prob_map).
  { clear Hfc. unfold binarize. induction Hall as [|row rows Hrow _ IH]; [reflexivity|].
    simpl. f_equal; [apply binarize_row_background, Hrow | exact IH]. }
  split; [exact Hb|].
  unfold db_postprocess. cbv zeta. rewrite Hb, Hfc. reflexivity.
Qed.

Lemma db_postprocess_all_background_witness :
  db_postprocess RectWorld.rect_cv2 RectWorld.box_pyclipper
    [[1 # 10; 1 # 10]; [1 # 10; 3 # 10]] (2, 2)%Z (2, 2)%Z 1 default_thresh
    default_box_thresh default_unclip_ratio default_max_candidates default_min_area = [].
Proof.
  apply (db_postprocess_all_background RectWorld.rect_cv2 RectWorld.box_pyclipper
           [[1 # 10; 1 # 10]; [1 # 10; 3 # 10]]).
  - repeat constructor; discriminate.
  - reflexivity.
Defined.

(** ** The cap *)

(** The result is a prefix of the polygons of the regions that yield one,
    in discovery order, of length the smaller of their number and
    [max(1, max_candidates)]. *)
Theorem db_postprocess_prefix (cv2 : Cv2) (pyclipper : Pyclipper) (prob_map : ProbMap)
    (orig_h orig_w : Z) (resize_shape : Z * Z) (scale thresh box_thresh unclip_ratio : Q)
    (max_candidates : Z) (min_area : Q) :
  let accepted :=
    omap (region_polygon cv2 pyclipper prob_map orig_h orig_w scale box_thresh unclip_ratio
                         min_area)
         (findContours cv2 (binarize prob_map thresh)) in
  let result :=
    db_postprocess cv2 pyclipper prob_map (orig_h, orig_w) resize_shape scale thresh
                   box_thresh unclip_ratio max_candidates min_area in
  result `prefix_of` accepted /\
  length result = Nat.min (Z.to_nat (Z.max 1 max_candidates)) (length accepted).
Proof.
  cbv zeta. rewrite db_postprocess_take. split.
  - apply prefix_take.
  - apply length_take.
Qed.

(** With a cap of at least one, the number of returned polygons is the
    smaller of the cap and the number of regions that yield a polygon. *)
Theorem db_postprocess_count (cv2 : Cv2) (pyclipper : Pyclipper) (prob_map : ProbMap)
    (orig_h orig_w : Z) (resize_shape : Z * Z) (scale thresh box_thresh unclip_ratio : Q)
    (max_candidates : Z) (min_area : Q) :
  (1 <= max_candidates)%Z ->
  Z.of_nat (length (db_postprocess cv2 pyclipper prob_map (orig_h, orig_w) resize_shape scale
                      thresh box_thresh unclip_ratio max_candidates min_area))
  = Z.min max_candidates
      (Z.of_nat (length (omap (region_polygon cv2 pyclipper prob_map orig_h orig_w scale
                                              box_thresh unclip_ratio min_area)
                              (findContours cv2 (binarize prob_map thresh))))).
Proof.
  intros Hm. rewrite db_postprocess_take, length_take. unfold cap. lia.
Qed.

Lemma db_postprocess_count_witness :
  Z.of_nat (length (db_postprocess RectWorld.rect_cv2 RectWorld.box_pyclipper
                      RectWorld.top_map (5, 7)%Z (5, 7)%Z 1 default_thresh default_box_thresh
                      default_unclip_ratio 3 10))
  = Z.min 3
      (Z.of_nat (length (omap (region_polygon RectWorld.rect_cv2 RectWorld.box_pyclipper
                                 RectWorld.top_map 5 7 1 default_box_thresh
                                 default_unclip_ratio 10)
                              (findContours RectWorld.rect_cv2
                                 (binarize RectWorld.top_map default_thresh))))).
Proof.
  apply (db_postprocess_count RectWorld.rect_cv2 RectWorld.box_pyclipper RectWorld.top_map
           5 7 (5, 7)%Z 1 default_thresh default_box_thresh default_unclip_ratio 3 10).
  lia.
Defined.

Lemma prefix_take_le {A : Type} (l : list A) (n m : nat) :
  (n <= m)%nat -> take n l `prefix_of` take m l.
Proof.
  intros Hle. replace (take n l) with (take n (take m l)).
  - apply prefix_take.
  - rewrite take_take. f_equal. lia.
Qed.

(** Raising the cap only appends: the result for a smaller cap is a prefix
    of the result for a larger one. *)
Theorem db_postprocess_cap_monotone (cv2 : Cv2) (pyclipper : Pyclipper) (prob_map : ProbMap)
    (orig_shape resize_shape : Z * Z) (scale thresh box_thresh unclip_ratio : Q)
    (smaller larger : Z) (min_area : Q) :
  (smaller <= larger)%Z ->
  db_postprocess cv2 pyclipper prob_map orig_shape resize_shape scale thresh box_thresh
                 unclip_ratio smaller min_area
  `prefix_of`
  db_postprocess cv2 pyclipper prob_map orig_shape resize_shape scale thresh box_thresh
                 unclip_ratio larger min_area.
Proof.
  intros Hle. destruct orig_shape as [orig_h orig_w]. rewrite !db_postprocess_take.
  apply prefix_take_le. unfold cap. lia.
Qed.

Lemma db_postprocess_cap_monotone_witness :
  db_postprocess RectWorld.rect_cv2 RectWorld.box_pyclipper RectWorld.top_map
    (5, 7)%Z (5, 7)%Z 1 default_thresh default_box_thresh default_unclip_ratio 0 10
  `prefix_of`
  db_postprocess RectWorld.rect_cv2 RectWorld.box_pyclipper RectWorld.top_map
    (5, 7)%Z (5, 7)%Z 1 default_thresh default_box_thresh default_unclip_ratio 1000 10.
Proof.
  apply (db_postprocess_cap_monotone RectWorld.rect_cv2 RectWorld.box_pyclipper
           RectWorld.top_map (5, 7)%Z (5, 7)%Z 1 default_thresh default_box_thresh
           default_unclip_ratio 0 1000 10).
  lia.
Defined.

(** ** The area threshold *)

Lemma region_polygon_min_area (cv2 : Cv2) (pyclipper : Pyclipper) (prob_map : ProbMap)
    (orig_h orig_w : Z) (scale box_thresh unclip_ratio lower upper : Q)
    (contour : Contour) (polygon : Polygon) :
  lower <= upper ->
  region_polygon cv2 pyclipper prob_map orig_h orig_w scale box_thresh unclip_ratio upper
                 contour = Some polygon ->
  region_polygon cv2 pyclipper prob_map orig_h orig_w scale box_thresh unclip_ratio lower
                 contour = Some polygon.
Proof.
  intros Hle Hr. pose proof Hr as Hr'.
  apply region_polygon_Some in Hr' as (Ha & _ & _).
  assert (Ha' : passes_area lower contour = true).
  { apply passes_area_true. apply passes_area_true in Ha.
    apply Qle_trans with upper; assumption. }
  unfold region_polygon in *. rewrite Ha in Hr. rewrite Ha'. exact Hr.
Qed.

(** With everything else fixed, a smaller or equal [min_area] never gives
    fewer polygons. *)
Theorem db_postprocess_count_antitone_min_area (cv2 : Cv2) (pyclipper : Pyclipper)
    (prob_map : ProbMap) (orig_shape resize_shape : Z * Z)
    (scale thresh box_thresh unclip_ratio : Q) (max_candidates : Z) (lower upper : Q) :
  lower <= upper ->
  (length (db_postprocess cv2 pyclipper prob_map orig_shape resize_shape scale thresh
             box_thresh unclip_ratio max_candidates upper)
   <= length (db_postprocess cv2 pyclipper prob_map orig_shape resize_shape scale thresh
                box_thresh unclip_ratio max_candidates lower))%nat.
Proof.
  intros Hle. destruct orig_shape as [orig_h orig_w].
  rewrite !db_postprocess_take, !length_take.
  apply Nat.min_le_compat_l, omap_length_le.
  intros contour polygon _ Hr. exists polygon.
  apply (region_polygon_min_area _ _ _ _ _ _ _ _ _ _ _ _ Hle Hr).
Qed.

Lemma db_postprocess_count_antitone_min_area_witness :
  (length (db_postprocess RectWorld.rect_cv2 RectWorld.box_pyclipper RectWorld.top_map
             (5, 7)%Z (5, 7)%Z 1 default_thresh default_box_thresh default_unclip_ratio
             default_max_candidates default_min_area)
   <= length (db_postprocess RectWorld.rect_cv2 RectWorld.box_pyclipper RectWorld.top_map
                (5, 7)%Z (5, 7)%Z 1 default_thresh default_box_thresh default_unclip_ratio
                default_max_candidates 10))%nat.
Proof.
  apply (db_postprocess_count_antitone_min_area RectWorld.rect_cv2 RectWorld.box_pyclipper
           RectWorld.top_map (5, 7)%Z (5, 7)%Z 1 default_thresh default_box_thresh
           default_unclip_ratio default_max_candidates 10 default_min_area).
  discriminate.
Defined.

(** ** Simplification and scoring edge cases *)

(** A region whose simplified contour has fewer than three points is
    skipped whatever the expansion would give, and the result is that of
    the loop over the other regions. *)
Theorem short_simplification_skips_region (cv2 : Cv2) (pyclipper : Pyclipper)
    (prob_map : ProbMap) (orig_h orig_w : Z) (resize_shape : Z * Z)
    (scale thresh box_thresh unclip_ratio : Q) (max_candidates : Z) (min_area : Q)
    (pre post : list Contour) (contour : Contour) :
  findContours cv2 (binarize prob_map thresh) = pre ++ contour :: post ->
  (length (approxPolyDP cv2 contour ((5 # 1000) * arcLength cv2 (to_float contour))) < 3)%nat ->
  region_polygon cv2 pyclipper prob_map orig_h orig_w scale box_thresh unclip_ratio min_area
                 contour = None /\
  db_postprocess cv2 pyclipper prob_map (orig_h, orig_w) resize_shape scale thresh box_thresh
                 unclip_ratio max_candidates min_area
  = process_contours cv2 pyclipper prob_map orig_h orig_w scale box_thresh unclip_ratio
      min_area max_candidates (pre ++ post) [].
Proof.
  intros Hc Hshort.
  assert (Hr : region_polygon cv2 pyclipper prob_map orig_h orig_w scale box_thresh
                 unclip_ratio min_area contour = None).
  { unfold region_polygon.
    destruct (negb (passes_area min_area contour)); [reflexivity|].
    destruct (negb (passes_score cv2 prob_map box_thresh contour)); [reflexivity|].
    unfold expand_region. cbv zeta.
    apply Nat.ltb_lt in Hshort. rewrite Hshort. reflexivity. }
  split; [exact Hr|].
  rewrite db_postprocess_process, Hc.
  apply process_contours_skip; [simpl; apply cap_pos | exact Hr].
Qed.

(** ** is_clockwise *)

Lemma last_cons_default {A : Type} (l : list A) (a d : A) :
  List.last (a :: l) d = List.last l a.
Proof.
  revert a d. induction l as [|c l IH]; intros a d; [reflexivity|].
  change (List.last (a :: c :: l) d) with (List.last (c :: l) d).
  rewrite !IH. reflexivity.
Qed.

Lemma orientation_sum_translate_cons (dx dy : Q) (a : Point) (l : Polygon) :
  orientation_sum (map (fun v => (fst v + dx, snd v + dy)) (a :: l))
  == orientation_sum (a :: l) + 2 * dy * (fst (List.last l a) - fst a).
Proof.
  revert a. induction l as [|b l IH]; intros a.
  - simpl map. rewrite !orientation_sum_one. cbn [List.last]. ring.
  - change (map (fun v => (fst v + dx, snd v + dy)) (a :: b :: l))
      with ((fst a + dx, snd a + dy) :: map (fun v => (fst v + dx, snd v + dy)) (b :: l)).
    change (map (fun v => (fst v + dx, snd v + dy)) (b :: l))
      with ((fst b + dx, snd b + dy) :: map (fun v => (fst v + dx, snd v + dy)) l).
    rewrite orientation_sum_cons.
    change ((fst b + dx, snd b + dy) :: map (fun v => (fst v + dx, snd v + dy)) l)
      with (map (fun v => (fst v + dx, snd v + dy)) (b :: l)).
    rewrite IH, orientation_sum_cons.
    rewrite (last_cons_default l b a). unfold edge_term. cbn [fst snd]. ring.
Qed.

(** The sum of [is_clockwise] leaves out the closing edge, so it is not
    invariant under translation: moving a polygon by [(dx, dy)] adds
    [2 * dy * (x_last - x_first)] to it.  It is unchanged by horizontal
    moves, and by vertical ones only when the first and last vertices have
    the same abscissa. *)
Theorem orientation_sum_translate (dx dy : Q) (polygon : Polygon) :
  orientation_sum (map (fun v => (fst v + dx, snd v + dy)) polygon)
  == orientation_sum polygon
     + 2 * dy * (fst (List.last polygon (0, 0)) - fst (hd (0, 0) polygon)).
Proof.
  destruct polygon as [|a l].
  - change (0 == 0 + 2 * dy * (0 - 0)). ring.
  - rewrite orientation_sum_translate_cons.
    rewrite (last_cons_default l a (0, 0)). simpl hd. reflexivity.
Qed.

Lemma short_simplification_skips_region_witness :
  db_postprocess MoreStandIns.coarse_cv2 RectWorld.box_pyclipper RectWorld.top_map
    (5, 7)%Z (5, 7)%Z 1 default_thresh default_box_thresh default_unclip_ratio
    default_max_candidates 10
  = process_contours MoreStandIns.coarse_cv2 RectWorld.box_pyclipper RectWorld.top_map
      5 7 1 default_box_thresh default_unclip_ratio 10 default_max_candidates ([] ++ []) [].
Proof.
  apply (short_simplification_skips_region MoreStandIns.coarse_cv2 RectWorld.box_pyclipper
           RectWorld.top_map 5 7 (5, 7)%Z 1 default_thresh default_box_thresh
           default_unclip_ratio default_max_candidates 10
           [] [] [(1, 0); (1, 3); (5, 3); (5, 0)]%Z).
  - vm_compute. reflexivity.
  - simpl. lia.
Defined.

(** ** Clipping *)

Lemma np_clip_cases (a lo hi : Q) :
  lo <= hi ->
  (lo <= a -> a <= hi -> np_clip a lo hi == a) /\
  (a <= lo -> np_clip a lo hi == lo) /\
  (hi <= a -> np_clip a lo hi == hi).
Proof.
  intros H. unfold np_clip. repeat split.
  - intros Hl Hu. rewrite (Q.max_l a lo Hl). apply Q.min_r, Hu.
  - intros Hl. rewrite (Q.max_r a lo Hl). apply Q.min_r, H.
  - intros Hu. apply Q.min_l.
    apply Qle_trans with a; [exact Hu | apply Q.le_max_l].
Qed.

(** Clipping moves a vertex, it does not drop it: vertex [i] of the result
    comes from vertex [i] of the expanded polygon; a coordinate that, after
    division by the scale, lies in the image is kept, one below zero
    becomes zero and one beyond the image size becomes that size. *)
Theorem scale_and_clip_vertex (scale : Q) (orig_h orig_w : Z) (expanded : Polygon)
    (i : nat) (v : Point) :
  (0 <= orig_h)%Z -> (0 <= orig_w)%Z ->
  expanded !! i = Some v ->
  exists v',
    scale_and_clip scale orig_h orig_w expanded !! i = Some v' /\
    (0 <= fst v / scale -> fst v / scale <= inject_Z orig_w -> fst v' == fst v / scale) /\
    (fst v / scale <= 0 -> fst v' == 0) /\
    (inject_Z orig_w <= fst v / scale -> fst v' == inject_Z orig_w) /\
    (0 <= snd v / scale -> snd v / scale <= inject_Z orig_h -> snd v' == snd v / scale) /\
    (snd v / scale <= 0 -> snd v' == 0) /\
    (inject_Z orig_h <= snd v / scale -> snd v' == inject_Z orig_h).
Proof.
  intros Hh Hw Hv.
  assert (Hhq : 0 <= inject_Z orig_h) by (change 0 with (inject_Z 0); rewrite <- Zle_Qle; lia).
  assert (Hwq : 0 <= inject_Z orig_w) by (change 0 with (inject_Z 0); rewrite <- Zle_Qle; lia).
  rewrite scale_and_clip_map. unfold Polygon, Point in *.
  rewrite list_lookup_fmap, Hv. simpl. eexists. split; [reflexivity|]. simpl.
  destruct (np_clip_cases (fst v / scale) 0 (inject_Z orig_w) Hwq) as (? & ? & ?).
  destruct (np_clip_cases (snd v / scale) 0 (inject_Z orig_h) Hhq) as (? & ? & ?).
  repeat split; assumption.
Qed.

Lemma scale_and_clip_vertex_witness :
  exists v',
    scale_and_clip 2 5 7 [(20, 4); (- (3), 6)] !! 0%nat = Some v' /\
    fst v' == 7 /\ snd v' == 2.
Proof.
  destruct (scale_and_clip_vertex 2 5 7 [(20, 4); (- (3), 6)] 0 (20, 4))
    as (v' & Hv & _ & _ & Hx & Hy & _ & _); [lia | lia | reflexivity |].
  exists v'. split; [exact Hv|]. split.
  - apply Hx. vm_compute. discriminate.
  - rewrite Hy; [reflexivity | vm_compute; discriminate | vm_compute; discriminate].
Defined.

(** ** The ring unclip selects *)

Lemma py_max_by_first {A : Type} (key : A -> Q) (rest : list A) (best : A) :
  exists i,
    (best :: rest) !! i = Some (py_max_by key best rest) /\
    forall j x, (j < i)%nat -> (best :: rest) !! j = Some x ->
                key x < key (py_max_by key best rest).
Proof.
  revert best. induction rest as [|item rest IH]; intros best.
  - exists 0%nat. split; [reflexivity | intros j x Hj; lia].
  - simpl py_max_by. destruct (Qltb (key best) (key item)) eqn:E.
    + destruct (IH item) as (i & Hi & Hbefore). exists (S i). split; [exact Hi|].
      intros j x Hj Hx. destruct j as [|j].
      * injection Hx as <-. apply Qltb_lt in E.
        apply Qlt_le_trans with (key item); [exact E | apply py_max_by_ge_best].
      * apply (Hbefore j x); [lia | exact Hx].
    + destruct (IH best) as (i & Hi & Hbefore). apply Qltb_ge in E.
      destruct i as [|i].
      * exists 0%nat. split; [exact Hi | intros j x Hj; lia].
      * exists (S (S i)). split; [exact Hi|].
        intros j x Hj Hx.
        assert (Hb : key best < key (py_max_by key best rest))
          by (apply (Hbefore 0%nat best); [lia | reflexivity]).
        destruct j as [|[|j]].
        -- injection Hx as <-. exact Hb.
        -- injection Hx as <-. apply Qle_lt_trans with (key best); assumption.
        -- apply (Hbefore (S j) x); [lia | exact Hx].
Qed.

(** When the engine yields several rings, [unclip] returns the first ring
    of greatest absolute area: every ring before it is strictly smaller,
    and none is larger. *)
Theorem unclip_selects_first_largest (cv2 : Cv2) (pyclipper : Pyclipper)
    (polygon : Polygon) (unclip_ratio area : Q) (rings : list Path) :
  1 # 1000000 <= arcLength cv2 polygon ->
  offset_round_closed pyclipper
    (map (fun p => (py_int (fst p * SCALE), py_int (snd p * SCALE))) polygon)
    (py_int (area * unclip_ratio / arcLength cv2 polygon * SCALE)) = Val rings ->
  rings <> [] ->
  exists i ring,
    rings !! i = Some ring /\
    unclip cv2 pyclipper polygon unclip_ratio area
    = Val (Some (map (fun p => (inject_Z (fst p) / SCALE, inject_Z (snd p) / SCALE)) ring)) /\
    (forall j r, (j < i)%nat -> rings !! j = Some r ->
                 Qabs (Area pyclipper r) < Qabs (Area pyclipper ring)) /\
    (forall j r, rings !! j = Some r ->
                 Qabs (Area pyclipper r) <= Qabs (Area pyclipper ring)).
Proof.
  intros Hge Hr Hne. destruct rings as [|p0 ps]; [congruence|].
  destruct (py_max_by_first (fun p => Qabs (Area pyclipper p)) ps p0) as (i & Hi & Hbefore).
  exists i, (py_max_by (fun p => Qabs (Area pyclipper p)) p0 ps).
  split; [exact Hi|]. split; [|split].
  - unfold unclip, try_except, unclip_body. cbv zeta.
    apply Qltb_ge in Hge. rewrite Hge, Hr. reflexivity.
  - exact Hbefore.
  - intros j r Hj. apply (py_max_by_greatest (fun p => Qabs (Area pyclipper p))).
    apply list_elem_of_lookup_2 in Hj. exact Hj.
Qed.

Lemma unclip_selects_first_largest_witness :
  unclip RectWorld.rect_cv2 MoreStandIns.split_pyclipper
    [(1, 0); (1, 3); (5, 3); (5, 0)] (15 # 10) 12
  = Val (Some (map (fun p => (inject_Z (fst p) / SCALE, inject_Z (snd p) / SCALE))
                   [(0, 0); (0, 2000); (2000, 2000); (2000, 0)]%Z)).
Proof.
  destruct (unclip_selects_first_largest RectWorld.rect_cv2 MoreStandIns.split_pyclipper
              [(1, 0); (1, 3); (5, 3); (5, 0)] (15 # 10) 12 MoreStandIns.three_rings)
    as (i & ring & Hi & Hu & Hbefore & Hall);
    [vm_compute; discriminate | reflexivity | discriminate |].
  rewrite Hu. do 3 f_equal.
  destruct i as [|[|[|i]]]; simpl in Hi; try discriminate.
  - exfalso. injection Hi as <-.
    specialize (Hall 1%nat _ eq_refl). vm_compute in Hall. apply Hall. reflexivity.
  - injection Hi as <-. reflexivity.
  - exfalso. injection Hi as <-.
    specialize (Hbefore 1%nat _ ltac:(lia) eq_refl). vm_compute in Hbefore. discriminate.
Defined.

(** ** Further properties of the resize metadata *)

Lemma inject_Z_le_half (a b : Z) : inject_Z a <= inject_Z b + (1 # 2) -> (a <= b)%Z.
Proof.
  intros H. destruct (Z_lt_le_dec b a) as [Hlt|Hle]; [|exact Hle].
  assert (Hq : inject_Z (b + 1) <= inject_Z a) by (rewrite <- Zle_Qle; lia).
  rewrite inject_Z_plus in Hq. change (inject_Z 1) with 1 in Hq. lra.
Qed.

Lemma py_round_le (x : Q) (z : Z) : x <= inject_Z z -> (py_round x <= z)%Z.
Proof.
  intros H. apply inject_Z_le_half.
  destruct (py_round_nearest x) as [_ Hu]. lra.
Qed.

(** Neither resized side exceeds the target long side. *)
Theorem resize_meta_within_target (orig_h orig_w resize_long : Z) :
  (0 < orig_h)%Z -> (0 < orig_w)%Z -> (0 < resize_long)%Z ->
  let '(resize_h, resize_w, _) := compute_det_resize_meta orig_h orig_w resize_long in
  (resize_h <= resize_long)%Z /\ (resize_w <= resize_long)%Z.
Proof.
  intros Hh Hw HL. unfold compute_det_resize_meta. cbv zeta.
  set (m := Z.max orig_h orig_w).
  assert (Hm : 0 < inject_Z m).
  { change 0 with (inject_Z 0). rewrite <- Zlt_Qlt. unfold m. lia. }
  assert (HLq : 0 <= inject_Z resize_long).
  { change 0 with (inject_Z 0). rewrite <- Zle_Qle. lia. }
  assert (Hside : forall side, (0 < side)%Z -> (side <= m)%Z ->
            inject_Z side * (inject_Z resize_long / inject_Z m) <= inject_Z resize_long).
  { intros side Hs Hsm.
    assert (Hsq : inject_Z side <= inject_Z m) by (rewrite <- Zle_Qle; exact Hsm).
    assert (E : inject_Z side * (inject_Z resize_long / inject_Z m)
                == inject_Z resize_long * (inject_Z side / inject_Z m)) by (field; lra).
    rewrite E.
    assert (Hr : inject_Z side / inject_Z m <= 1).
    { apply Qle_shift_div_r; [exact Hm | lra]. }
    set (r := inject_Z side / inject_Z m) in *. nra. }
  split; apply py_round_le, Hside; unfold m; lia.
Qed.

Lemma resize_meta_within_target_witness :
  let '(resize_h, resize_w, _) := compute_det_resize_meta 1080 1920 960 in
  (resize_h <= 960)%Z /\ (resize_w <= 960)%Z.
Proof.
  apply (resize_meta_within_target 1080 1920 960); lia.
Defined.

(** An image whose long side already is the target is left at its size,
    with scale one. *)
Theorem resize_meta_fixed_point (orig_h orig_w : Z) :
  (0 < orig_h)%Z -> (0 < orig_w)%Z ->
  let '(resize_h, resize_w, scale) :=
    compute_det_resize_meta orig_h orig_w (Z.max orig_h orig_w) in
  resize_h = orig_h /\ resize_w = orig_w /\ scale == 1.
Proof.
  intros Hh Hw. unfold compute_det_resize_meta. cbv zeta.
  set (m := Z.max orig_h orig_w).
  assert (Hm : 0 < inject_Z m).
  { change 0 with (inject_Z 0). rewrite <- Zlt_Qlt. unfold m. lia. }
  assert (Hs : inject_Z m / inject_Z m == 1) by (field; lra).
  assert (Hx : forall side, inject_Z side * (inject_Z m / inject_Z m) == inject_Z side).
  { intros side. rewrite Hs. ring. }
  repeat split.
  - rewrite (py_round_comp _ _ (Hx orig_h)). apply py_round_inject_Z.
  - rewrite (py_round_comp _ _ (Hx orig_w)). apply py_round_inject_Z.
  - exact Hs.
Qed.

Lemma resize_meta_fixed_point_witness :
  let '(resize_h, resize_w, scale) := compute_det_resize_meta 640 960 (Z.max 640 960) in
  resize_h = 640%Z /\ resize_w = 960%Z /\ scale == 1.
Proof.
  apply (resize_meta_fixed_point 640 960); lia.
Defined.

(** The resize keeps the aspect ratio up to rounding: the cross products
    of the resized and the original sides differ by at most half the sum
    of the original sides. *)
Theorem resize_meta_aspect_ratio (orig_h orig_w resize_long : Z) :
  (0 < orig_h)%Z -> (0 < orig_w)%Z -> (0 < resize_long)%Z ->
  let '(resize_h, resize_w, _) := compute_det_resize_meta orig_h orig_w resize_long in
  Qabs (inject_Z resize_h * inject_Z orig_w - inject_Z resize_w * inject_Z orig_h)
  <= (inject_Z orig_h + inject_Z orig_w) / 2.
Proof.
  intros Hh Hw HL. unfold compute_det_resize_meta. cbv zeta.
  set (scale := inject_Z resize_long / inject_Z (Z.max orig_h orig_w)).
  assert (Hhq : 0 < inject_Z orig_h).
  { change 0 with (inject_Z 0). rewrite <- Zlt_Qlt. lia. }
  assert (Hwq : 0 < inject_Z orig_w).
  { change 0 with (inject_Z 0). rewrite <- Zlt_Qlt. lia. }
  destruct (py_round_nearest (inject_Z orig_h * scale)) as [Hl1 Hu1].
  destruct (py_round_nearest (inject_Z orig_w * scale)) as [Hl2 Hu2].
  set (rh := inject_Z (py_round (inject_Z orig_h * scale))) in *.
  set (rw := inject_Z (py_round (inject_Z orig_w * scale))) in *.
  set (h := inject_Z orig_h) in *. set (w := inject_Z orig_w) in *.
  assert (E : rh * w - rw * h == (rh - h * scale) * w - (rw - w * scale) * h) by ring.
  rewrite E. apply Qabs_Qle_condition.
  assert (H1 : - (1 # 2) * w <= (rh - h * scale) * w /\ (rh - h * scale) * w <= (1 # 2) * w).
  { split; apply Qmult_le_compat_r; lra. }
  assert (H2 : - (1 # 2) * h <= (rw - w * scale) * h /\ (rw - w * scale) * h <= (1 # 2) * h).
  { split; apply Qmult_le_compat_r; lra. }
  assert (E2 : (h + w) / 2 == (1 # 2) * h + (1 # 2) * w) by field.
  rewrite E2. split; lra.
Qed.

Lemma resize_meta_aspect_ratio_witness :
  let '(resize_h, resize_w, _) := compute_det_resize_meta 1080 1920 960 in
  Qabs (inject_Z resize_h * inject_Z 1920 - inject_Z resize_w * inject_Z 1080)
  <= (inject_Z 1080 + inject_Z 1920) / 2.
Proof.
  apply (resize_meta_aspect_ratio 1080 1920 960); lia.
Defined.

(** ** sigmoid *)

(** Whatever the argument, [sigmoid] evaluates the exponential between
    -500 and 500 only: it is constant from 500 upwards and from -500
    downwards.  With an exponential that is never negative its values lie
    between zero and one, both included. *)
Theorem sigmoid_saturates (exp : Q -> Q) (x : Q) :
  (forall a b, a == b -> exp a == exp b) ->
  (500 <= x -> sigmoid exp x == sigmoid exp 500) /\
  (x <= - (500) -> sigmoid exp x == sigmoid exp (- (500))) /\
  ((forall y, 0 <= exp y) -> 0 <= sigmoid exp x /\ sigmoid exp x <= 1).
Proof.
  intros Hp.
  assert (Hsame : forall a b, np_clip a (- (500)) 500 == np_clip b (- (500)) 500 ->
                              sigmoid exp a == sigmoid exp b).
  { intros a b E. unfold sigmoid.
    assert (E' : exp (- np_clip a (- (500)) 500) == exp (- np_clip b (- (500)) 500)).
    { apply Hp. rewrite E. reflexivity. }
    rewrite E'. reflexivity. }
  destruct (np_clip_cases x (- (500)) 500 ltac:(discriminate)) as (_ & Hlo & Hhi).
  destruct (np_clip_cases 500 (- (500)) 500 ltac:(discriminate)) as (_ & _ & Hhi').
  destruct (np_clip_cases (- (500)) (- (500)) 500 ltac:(discriminate)) as (_ & Hlo' & _).
  split; [|split].
  - intros Hx. apply Hsame. rewrite (Hhi Hx), (Hhi' ltac:(discriminate)). reflexivity.
  - intros Hx. apply Hsame. rewrite (Hlo Hx), (Hlo' ltac:(discriminate)). reflexivity.
  - intros Hpos. unfold sigmoid.
    set (e := exp (- np_clip x (- (500)) 500)).
    assert (He : 0 <= e) by apply Hpos.
    split; [apply Qle_shift_div_l | apply Qle_shift_div_r]; lra.
Qed.

Lemma sigmoid_saturates_witness :
  sigmoid (fun y => 1 + y * y) 1000 == sigmoid (fun y => 1 + y * y) 500 /\
  sigmoid (fun y => 1 + y * y) (- (1000)) == sigmoid (fun y => 1 + y * y) (- (500)) /\
  0 <= sigmoid (fun y => 1 + y * y) 3 /\ sigmoid (fun y => 1 + y * y) 3 <= 1.
Proof.
  assert (Hp : forall a b, a == b -> 1 + a * a == 1 + b * b)
    by (intros a b E; rewrite E; reflexivity).
  destruct (sigmoid_saturates (fun y => 1 + y * y) 1000 Hp) as (H1 & _ & _).
  destruct (sigmoid_saturates (fun y => 1 + y * y) (- (1000)) Hp) as (_ & H2 & _).
  destruct (sigmoid_saturates (fun y => 1 + y * y) 3 Hp) as (_ & _ & H3).
  split; [apply H1; discriminate|]. split; [apply H2; discriminate|].
  apply H3. intros y. nra.
Defined.

(** * Properties of visualize.py *)

Lemma shape_map_map {A B : Type} (f : A -> B) (a : list (list A)) :
  shape (map (map f) a) = shape a.
Proof.
  unfold shape. rewrite length_map. destruct a as [|row a]; [reflexivity|].
  simpl. rewrite length_map. reflexivity.
Qed.

Lemma at2_map_map {A B : Type} (f : A -> B) (a : list (list A)) (r c : nat) :
  at2 (map (map f) a) r c = f <$> at2 a r c.
Proof.
  unfold at2. rewrite list_lookup_fmap.
  destruct (a !! r) as [row|]; simpl; [|reflexivity].
  rewrite list_lookup_fmap. destruct (row !! c); reflexivity.
Qed.

(** [preprocess_image] asks the resize for the size (width, height) that
    [compute_det_resize_meta] gives for the image's shape, and raises when
    the resize does.  Otherwise it returns that metadata with the image's
    shape and a tensor of one batch and three planes of the resized image's
    shape: red, green and blue in that order, the reverse of the input's
    channel order, each value divided by 255 and normalised with the mean
    and deviation of its own channel. *)
Theorem preprocess_image_layout (resize : Visualize.BgrImage -> Z * Z -> exc Visualize.BgrImage)
    (img : Visualize.BgrImage) (target_long_side resize_h resize_w : Z) (scale : Q) :
  compute_det_resize_meta (Z.of_nat (fst (shape img))) (Z.of_nat (snd (shape img)))
                          target_long_side = (resize_h, resize_w, scale) ->
  (forall msg, resize img (resize_w, resize_h) = Raised msg ->
     Visualize.preprocess_image resize img target_long_side = Raised msg) /\
  (forall resized, resize img (resize_w, resize_h) = Val resized ->
     exists red green blue,
       Visualize.preprocess_image resize img target_long_side
       = Val ([[red; green; blue]], resize_h, resize_w, scale, shape img) /\
       shape red = shape resized /\ shape green = shape resized /\
       shape blue = shape resized /\
       forall y x b g r, at2 resized y x = Some (b, g, r) ->
         at2 red y x = Some ((inject_Z r / 255 - (485 # 1000)) / (229 # 1000)) /\
         at2 green y x = Some ((inject_Z g / 255 - (456 # 1000)) / (224 # 1000)) /\
         at2 blue y x = Some ((inject_Z b / 255 - (406 # 1000)) / (225 # 1000))).
Proof.
  intros Hmeta. unfold Visualize.preprocess_image. cbv zeta.
  destruct (shape img) as [original_h original_w] eqn:Hs. simpl in Hmeta.
  rewrite Hmeta. split.
  - intros msg Hr. rewrite Hr. reflexivity.
  - intros resized Hr. rewrite Hr. simpl.
    do 3 eexists. split; [reflexivity|].
    rewrite !shape_map_map. repeat split; try reflexivity.
    all: rewrite !at2_map_map, H; reflexivity.
Qed.

Lemma preprocess_image_layout_witness :
  exists red green blue,
    Visualize.preprocess_image Visualize.flat_resize
      [[(10, 20, 30); (0, 0, 0)]; [(0, 0, 0); (255, 255, 255)]]%Z 4
    = Val ([[red; green; blue]], 4%Z, 4%Z, 4 # 2, (2%nat, 2%nat)) /\
    at2 red 3 3 = Some ((inject_Z 30 / 255 - (485 # 1000)) / (229 # 1000)) /\
    at2 blue 3 3 = Some ((inject_Z 10 / 255 - (406 # 1000)) / (225 # 1000)).
Proof.
  destruct (preprocess_image_layout Visualize.flat_resize
              [[(10, 20, 30); (0, 0, 0)]; [(0, 0, 0); (255, 255, 255)]]%Z 4 4 4 (4 # 2)
              eq_refl) as [_ H].
  destruct (H (replicate 4 (replicate 4 (10, 20, 30)%Z)) eq_refl)
    as (red & green & blue & Hp & _ & _ & _ & Hv).
  exists red, green, blue. split; [exact Hp|].
  destruct (Hv 3%nat 3%nat 10%Z 20%Z 30%Z eq_refl) as (Hr & _ & Hb).
  split; assumption.
Defined.

(** [run_onnx_inference] raises when the session gives no output.  On an
    output of shape [1, 1, H, W] and non-negative sizes it returns the
    top-left block of at most [resize_h] rows and [resize_w] columns of the
    sigmoid of the logits, entry for entry; a map smaller than the asked
    size is returned as it is, without an error. *)
Theorem run_onnx_inference_crop
    (session_run : string -> Visualize.Tensor4 -> exc (list Visualize.Tensor4))
    (exp : Q -> Q) (model_path : string) (input_tensor : Visualize.Tensor4)
    (resize_h resize_w : Z) :
  (0 <= resize_h)%Z -> (0 <= resize_w)%Z ->
  (session_run model_path input_tensor = Val [] ->
   exists msg, Visualize.run_onnx_inference session_run exp model_path input_tensor
                 resize_h resize_w = Raised msg) /\
  (forall logits channels batches outputs,
     session_run model_path input_tensor
     = Val (((logits :: channels) :: batches) :: outputs) ->
     exists prob_map,
       Visualize.run_onnx_inference session_run exp model_path input_tensor
         resize_h resize_w = Val prob_map /\
       length prob_map = Nat.min (Z.to_nat resize_h) (length logits) /\
       forall r c,
         at2 prob_map r c
         = if ((Z.of_nat r <? resize_h) && (Z.of_nat c <? resize_w))%Z
           then sigmoid exp <$> at2 logits r c
           else None).
Proof.
  intros Hh Hw. unfold Visualize.run_onnx_inference. split.
  - intros Hr. rewrite Hr. simpl. eauto.
  - intros logits channels batches outputs Hr. rewrite Hr. simpl.
    eexists. split; [reflexivity|].
    unfold Visualize.py_slice_to.
    destruct (Z.leb_spec 0 resize_h) as [_|?]; [|lia].
    destruct (Z.leb_spec 0 resize_w) as [_|?]; [|lia].
    split.
    + rewrite length_map, length_take, length_map. reflexivity.
    + intros r c. unfold at2. rewrite list_lookup_fmap.
      destruct (Z.ltb_spec (Z.of_nat r) resize_h) as [Hr1|Hr1]; simpl.
      * rewrite lookup_take_lt by lia. rewrite list_lookup_fmap.
        destruct (logits !! r) as [row|]; simpl;
          [|destruct (Z.of_nat c <? resize_w)%Z; reflexivity].
        destruct (Z.ltb_spec (Z.of_nat c) resize_w) as [Hc1|Hc1].
        -- rewrite lookup_take_lt by lia. rewrite list_lookup_fmap. reflexivity.
        -- rewrite lookup_take_ge by lia. reflexivity.
      * rewrite lookup_take_ge by lia. reflexivity.
Qed.

Lemma run_onnx_inference_crop_witness :
  exists prob_map,
    Visualize.run_onnx_inference (fun _ _ => Val [[[[[0; 1; 2]; [3; 4; 5]]]]])
      (fun y => 1 + y * y) "model.onnx" [] 1 2 = Val prob_map /\
    length prob_map = 1%nat /\
    at2 prob_map 0 2 = None.
Proof.
  destruct (run_onnx_inference_crop (fun _ _ => Val [[[[[0; 1; 2]; [3; 4; 5]]]]])
              (fun y => 1 + y * y) "model.onnx" [] 1 2 ltac:(lia) ltac:(lia)) as [_ H].
  destruct (H [[0; 1; 2]; [3; 4; 5]] [] [] [] eq_refl) as (prob_map & Hp & Hl & Hv).
  exists prob_map. split; [exact Hp|]. split; [exact Hl|].
  rewrite Hv. reflexivity.
Defined.

(** * Properties of scripts/extract_char_dict.py *)

(** The dictionary the script finds in a configuration. *)
Lemma extract_character_dict_cases (config : CharDict.Config)
    (output_json output_ts : option string) :
  match config !! "PostProcess" ≫= (fun section => section !! "character_dict") with
  | Some (char :: rest) =>
      CharDict.extract_character_dict config output_json output_ts
      = Val {| CharDict.returned := char :: rest;
               CharDict.json_dumped :=
                 (fun p => (p, char :: rest)) <$> CharDict.truthy output_json;
               CharDict.ts_written :=
                 (fun p => (p, CharDict.ts_text (char :: rest))) <$> CharDict.truthy output_ts |}
  | _ => exists msg, CharDict.extract_character_dict config output_json output_ts = Raised msg
  end.
Proof.
  unfold CharDict.extract_character_dict. cbv zeta.
  destruct (config !! "PostProcess") as [section|]; simpl.
  - destruct (section !! "character_dict") as [[|char rest]|]; simpl; eauto.
  - rewrite lookup_empty. simpl. eauto.
Qed.

(** Once the configuration is read and parsed, the script raises whenever
    it has no [PostProcess] section, or the section no [character_dict],
    or an empty one.  Whenever it returns, the result is the dictionary as
    it stands in the configuration, first entry first and nothing
    prepended; the same list was handed to [json.dump] exactly when a
    non-empty JSON path was given, and the TypeScript text was written
    exactly when a non-empty TypeScript path was given. *)
Theorem extract_character_dict_outcome (config : CharDict.Config)
    (output_json output_ts : option string) :
  let found :=
    config !! "PostProcess" ≫= (fun section => section !! "character_dict") in
  ((found = None \/ found = Some []) ->
   exists msg, CharDict.extract_character_dict config output_json output_ts = Raised msg) /\
  (forall outcome,
     CharDict.extract_character_dict config output_json output_ts = Val outcome ->
     found = Some (CharDict.returned outcome) /\
     CharDict.returned outcome <> [] /\
     CharDict.json_dumped outcome
     = (fun p => (p, CharDict.returned outcome)) <$> CharDict.truthy output_json /\
     CharDict.ts_written outcome
     = (fun p => (p, CharDict.ts_text (CharDict.returned outcome)))
         <$> CharDict.truthy output_ts).
Proof.
  cbv zeta. pose proof (extract_character_dict_cases config output_json output_ts) as H.
  destruct (config !! "PostProcess" ≫= (fun section => section !! "character_dict"))
    as [[|char rest]|].
  - split; [auto|]. intros outcome Ho. destruct H as [msg H]. congruence.
  - split.
    + intros [?|?]; discriminate.
    + intros outcome Ho. rewrite H in Ho. injection Ho as <-. simpl.
      repeat split; congruence.
  - split; [auto|]. intros outcome Ho. destruct H as [msg H]. congruence.
Qed.

Lemma extract_character_dict_outcome_witness :
  (exists msg, CharDict.extract_character_dict ∅ (Some "dict.json") None = Raised msg) /\
  (forall outcome,
     CharDict.extract_character_dict {[ "PostProcess" := {[ "character_dict" := ["a"; "'"] ]} ]}
       (Some "dict.json") (Some "") = Val outcome ->
     CharDict.returned outcome = ["a"; "'"] /\
     CharDict.json_dumped outcome = Some ("dict.json", ["a"; "'"]) /\
     CharDict.ts_written outcome = None).
Proof.
  split.
  - apply (proj1 (extract_character_dict_outcome ∅ (Some "dict.json") None)).
    left. reflexivity.
  - intros outcome Ho.
    destruct (proj2 (extract_character_dict_outcome
                       {[ "PostProcess" := {[ "character_dict" := ["a"; "'"] ]} ]}
                       (Some "dict.json") (Some "")) outcome Ho) as (Hf & _ & Hj & Ht).
    assert (Hr : CharDict.returned outcome = ["a"; "'"]).
    { vm_compute in Hf. injection Hf as Hf. symmetry. exact Hf. }
    rewrite Hr in Hj. split; [exact Hr|]. split; [exact Hj | exact Ht].
Defined.

Lemma ts_escape_plain (char : string) :
  char <> CharDict.squote -> char <> CharDict.dquote -> char <> CharDict.backslash ->
  char <> CharDict.newline -> char <> CharDict.creturn -> char <> CharDict.tab ->
  CharDict.ts_escape char = char.
Proof.
  intros H1 H2 H3 H4 H5 H6. unfold CharDict.ts_escape.
  apply String.eqb_neq in H1, H2, H3, H4, H5, H6.
  rewrite H1, H2, H3, H4, H5, H6. reflexivity.
Qed.

Lemma ts_escape_changed (char : string) :
  (CharDict.ts_escape char = char /\
   char ∉ [CharDict.squote; CharDict.dquote; CharDict.backslash;
           CharDict.newline; CharDict.creturn; CharDict.tab]) \/
  (char ∈ [CharDict.squote; CharDict.dquote; CharDict.backslash;
           CharDict.newline; CharDict.creturn; CharDict.tab] /\
   String.length char = 1%nat /\
   CharDict.ts_escape char <> char /\
   exists c, CharDict.ts_escape char = String "\"%char (String c EmptyString)).
Proof.
  destruct (String.eqb_spec char CharDict.squote) as [->|H1];
    [right; repeat split; [set_solver | discriminate | eexists; reflexivity]|].
  destruct (String.eqb_spec char CharDict.dquote) as [->|H2];
    [right; repeat split; [set_solver | discriminate | eexists; reflexivity]|].
  destruct (String.eqb_spec char CharDict.backslash) as [->|H3];
    [right; repeat split; [set_solver | discriminate | eexists; reflexivity]|].
  destruct (String.eqb_spec char CharDict.newline) as [->|H4];
    [right; repeat split; [set_solver | discriminate | eexists; reflexivity]|].
  destruct (String.eqb_spec char CharDict.creturn) as [->|H5];
    [right; repeat split; [set_solver | discriminate | eexists; reflexivity]|].
  destruct (String.eqb_spec char CharDict.tab) as [->|H6];
    [right; repeat split; [set_solver | discriminate | eexists; reflexivity]|].
  left. split; [apply ts_escape_plain; assumption|].
  intros Hin.
  repeat (apply elem_of_cons in Hin as [->|Hin]; [congruence|]).
  apply elem_of_nil in Hin. contradiction.
Qed.

(** Only an entry that is exactly one of the six special characters is
    escaped, to a backslash and one more character; every other entry is
    written as it is.  In particular an entry of two or more bytes is
    never escaped, whatever it contains. *)
Theorem ts_escape_spec (char : string) :
  (CharDict.ts_escape char <> char <->
   char ∈ [CharDict.squote; CharDict.dquote; CharDict.backslash;
           CharDict.newline; CharDict.creturn; CharDict.tab]) /\
  (CharDict.ts_escape char <> char ->
   exists c, CharDict.ts_escape char = String "\"%char (String c EmptyString)) /\
  ((2 <= String.length char)%nat -> CharDict.ts_escape char = char).
Proof.
  destruct (ts_escape_changed char) as [[Hsame Hnot]|(Hin & Hlen & Hne & Hc)].
  - split; [split; [congruence | intros Hin; contradiction]|].
    split; [congruence | intros _; exact Hsame].
  - split; [split; auto|].
    split; [intros _; exact Hc | intros Hlong; lia].
Qed.

(** Distinct entries are written differently, unless one of them is itself
    one of the six two-character escape sequences. *)
Theorem ts_escape_injective (s t : string) :
  CharDict.ts_escape s = CharDict.ts_escape t ->
  s = t \/
  (exists c, s = String "\"%char (String c EmptyString)) \/
  (exists c, t = String "\"%char (String c EmptyString)).
Proof.
  intros E.
  destruct (ts_escape_changed s) as [[Es _]|(Hs & _ & _ & [cs Hcs])];
    destruct (ts_escape_changed t) as [[Et _]|(Ht & _ & _ & [ct Hct])].
  - left. congruence.
  - right. left. exists ct. congruence.
  - right. right. exists cs. congruence.
  - left.
    repeat (apply elem_of_cons in Hs as [->|Hs]);
      repeat (apply elem_of_cons in Ht as [->|Ht]);
      try reflexivity; try discriminate E;
      try (apply elem_of_nil in Hs; contradiction);
      try (apply elem_of_nil in Ht; contradiction).
Qed.

Lemma ts_escape_injective_witness :
  CharDict.squote = "\'" \/
  (exists c, CharDict.squote = String "\"%char (String c EmptyString)) \/
  (exists c, "\'" = String "\"%char (String c EmptyString)).
Proof.
  apply (ts_escape_injective CharDict.squote "\'"). reflexivity.
Defined.

Lemma string_app_assoc (a b c : string) : (a +:+ b) +:+ c = a +:+ (b +:+ c).
Proof.
  induction a as [|x a IH]; [reflexivity|].
  change (String x ((a +:+ b) +:+ c) = String x (a +:+ (b +:+ c))). rewrite IH. reflexivity.
Qed.

Lemma ts_entries_line (ctc_dict : list string) (start i : nat) (char : string) :
  ctc_dict !! i = Some char ->
  CharDict.ts_entries start ctc_dict
  = CharDict.ts_entries start (take i ctc_dict)
    +:+ CharDict.ts_line (start + i) char
    +:+ CharDict.ts_entries (start + S i) (drop (S i) ctc_dict).
Proof.
  revert start i. induction ctc_dict as [|c rest IH]; intros start i Hi; [discriminate|].
  destruct i as [|i].
  - injection Hi as <-. simpl take. simpl drop. rewrite !Nat.add_0_r.
    replace (start + 1)%nat with (S start) by lia. reflexivity.
  - simpl in Hi. simpl take. simpl drop.
    change (CharDict.ts_entries start (c :: rest))
      with (CharDict.ts_line start c +:+ CharDict.ts_entries (S start) rest).
    change (CharDict.ts_entries start (c :: take i rest))
      with (CharDict.ts_line start c +:+ CharDict.ts_entries (S start) (take i rest)).
    rewrite (IH (S start) i Hi), string_app_assoc.
    replace (S start + i)%nat with (start + S i)%nat by lia.
    replace (S start + S i)%nat with (start + S (S i))%nat by lia.
    reflexivity.
Qed.

(** In the TypeScript text the entry at index [i] of the dictionary is
    written, after the four header lines, of which the third carries the
    number of entries, and after the lines of the entries before it, as its
    escaped form between single quotes, followed by a comment that carries
    the same index [i]; the lines of the later entries and the closing
    bracket follow. *)
Theorem ts_text_entry (ctc_dict : list string) (i : nat) (char : string) :
  ctc_dict !! i = Some char ->
  CharDict.ts_text ctc_dict
  = (("// Character dictionary extracted from inference.yml" +:+ CharDict.newline)
     +:+ ("// Index 0 is the blank token (CTC requirement)" +:+ CharDict.newline)
     +:+ ("// Total characters: " +:+ pretty (length ctc_dict)
          +:+ CharDict.newline +:+ CharDict.newline)
     +:+ ("export const CHARACTER_DICT: string[] = [" +:+ CharDict.newline)
     +:+ CharDict.ts_entries 0 (take i ctc_dict))
    +:+ ("  '" +:+ CharDict.ts_escape char +:+ "',  // " +:+ pretty i +:+ CharDict.newline)
    +:+ (CharDict.ts_entries (S i) (drop (S i) ctc_dict) +:+ ("];" +:+ CharDict.newline)).
Proof.
  intros Hi. unfold CharDict.ts_text.
  rewrite (ts_entries_line ctc_dict 0 i char Hi). simpl Nat.add.
  change (CharDict.ts_line i char)
    with ("  '" +:+ CharDict.ts_escape char +:+ "',  // " +:+ pretty i +:+ CharDict.newline).
  set (line := "  '" +:+ CharDict.ts_escape char +:+ "',  // " +:+ pretty i +:+ CharDict.newline).
  set (h1 := "// Character dictionary extracted from inference.yml" +:+ CharDict.newline).
  set (h2 := "// Index 0 is the blank token (CTC requirement)" +:+ CharDict.newline).
  set (h3 := "// Total characters: " +:+ pretty (length ctc_dict)
             +:+ CharDict.newline +:+ CharDict.newline).
  set (h4 := "export const CHARACTER_DICT: string[] = [" +:+ CharDict.newline).
  set (e1 := CharDict.ts_entries 0 (take i ctc_dict)).
  set (e2 := CharDict.ts_entries (S i) (drop (S i) ctc_dict)).
  set (foot := "];" +:+ CharDict.newline).
  rewrite !string_app_assoc. reflexivity.
Qed.

Lemma ts_text_entry_witness :
  CharDict.ts_text ["a"; "'"; "b"]
  = (("// Character dictionary extracted from inference.yml" +:+ CharDict.newline)
     +:+ ("// Index 0 is the blank token (CTC requirement)" +:+ CharDict.newline)
     +:+ ("// Total characters: " +:+ pretty (length ["a"; "'"; "b"])
          +:+ CharDict.newline +:+ CharDict.newline)
     +:+ ("export const CHARACTER_DICT: string[] = [" +:+ CharDict.newline)
     +:+ CharDict.ts_entries 0 (take 1 ["a"; "'"; "b"]))
    +:+ ("  '" +:+ CharDict.ts_escape "'" +:+ "',  // " +:+ pretty 1%nat +:+ CharDict.newline)
    +:+ (CharDict.ts_entries 2 (drop 2 ["a"; "'"; "b"]) +:+ ("];" +:+ CharDict.newline)).
Proof.
  apply (ts_text_entry ["a"; "'"; "b"] 1 "'"). reflexivity.
Defined.
